(** * fetch-gjs: a fetch-like function over a Soup.Session

    Shallow embedding of [src/index.mjs] ([makeFetch] and the function it
    returns) and the properties of the request it builds, the errors it
    raises and the Response-like object it resolves with.

    Conventions of the embedding:
    - JavaScript values are the inductive [value]; [typeof] and
      [ToBoolean] follow ECMAScript;
    - a [throw] is the [Throw] case of the exception monad [Exc];
    - the runtime and the GNOME libraries ([URL], [TextEncoder],
      [TextDecoder], [JSON], [String.prototype.toUpperCase], the
      [toString] of the array that [GLib.Bytes.get_data] returns) form the
      class [Host]: every property is proved for every host;
    - the containers of the host ([Soup.Message], [Soup.MessageHeaders],
      [ReadableStream], [Blob], [FormData]) are what the code puts into
      them, in the order of its calls; creating and filling them does not
      fail. A [Headers] object is its header list, and what [append]
      stores in it, or throws, is the host's;
    - arguments have the documented types: [options.method] is a string
      or absent, [options.headers] a plain object or absent; [url] and
      [options.body] are arbitrary values;
    - the object literal [response] lives in a heap, so that [clone] can
      return the object itself; its arrow functions are closures that
      carry the variables they capture. *)

From Stdlib Require Import ZArith NArith String Ascii Strings.Byte List Lia.
From Stdlib Require Import Floats.SpecFloat.
From stdpp Require Import base option list strings sorting.

Open Scope string_scope.
Open Scope list_scope.

(** ** JavaScript values *)

(** Address of a [response] object in the heap. *)
Definition loc := nat.

#[warnings="-register-all"]
Inductive value : Type :=
| VUndefined
| VNull
| VBoolean (b : bool)
| VNumber (x : spec_float)
| VBigInt (z : Z)
| VString (s : string)
| VSymbol (description : string)
| VFunction (name : string)
| VUint8Array (bytes : list byte)
| VURL (href : string)
| VError (name message : string) (cause : option value)
| VArray (items : list value)
| VObject (props : list (string * value))
| VBlob (parts : list string)
| VFormData (entries : list (string * string))
| VResponse (l : loc).

(** [typeof v]. *)
Definition typeof (v : value) : string :=
  match v with
  | VUndefined => "undefined"
  | VBoolean _ => "boolean"
  | VNumber _ => "number"
  | VBigInt _ => "bigint"
  | VString _ => "string"
  | VSymbol _ => "symbol"
  | VFunction _ => "function"
  | _ => "object"
  end.

(** Truthiness, as tested by [if (v)], [!v] and [v ? a : b]. *)
Definition ToBoolean (v : value) : bool :=
  match v with
  | VUndefined | VNull => false
  | VBoolean b => b
  | VNumber (S754_zero _) | VNumber S754_nan => false
  | VBigInt z => negb (z =? 0)%Z
  | VString s => negb (String.eqb s "")
  | _ => true
  end.

(** [new Error(message)] and [new Error(message, { cause })]. *)
Definition Error (message : string) : value := VError "Error" message None.
Definition ErrorWithCause (message : string) (cause : value) : value :=
  VError "Error" message (Some cause).

(** ** Exceptions *)

Inductive Exc (A : Type) : Type :=
| Normal (a : A)
| Throw (e : value).
Arguments Normal {A} a.
Arguments Throw {A} e.

#[global] Instance Exc_ret : MRet Exc := fun _ a => Normal a.
#[global] Instance Exc_bind : MBind Exc := fun _ _ f m =>
  match m with
  | Normal a => f a
  | Throw e => Throw e
  end.

(** ** Plain objects and [Object.entries] *)

(** A plain object is the list of its own enumerable string-keyed
    properties in the order in which they were created. *)
Definition JsObject := list (string * value).

(** [o[k] = v]: an existing property keeps its place and takes the new
    value, a new property goes last. *)
Fixpoint obj_set (k : string) (v : value) (o : JsObject) : JsObject :=
  match o with
  | [] => [(k, v)]
  | (k', v') :: o' =>
      if String.eqb k k' then (k, v) :: o' else (k', v') :: obj_set k v o'
  end.

(** The object literal [{k1: v1, k2: v2, ...}]. *)
Definition obj_literal (kvs : list (string * value)) : JsObject :=
  fold_left (fun o kv => obj_set (fst kv) (snd kv) o) kvs [].

Definition digit_of (a : ascii) : option N :=
  let n := N_of_ascii a in
  if ((48 <=? n) && (n <=? 57))%N then Some (n - 48)%N else None.

Fixpoint digits_value (s : string) (acc : N) : option N :=
  match s with
  | EmptyString => Some acc
  | String a s' =>
      match digit_of a with
      | Some d => digits_value s' (10 * acc + d)%N
      | None => None
      end
  end.

(** ECMAScript array index: the canonical decimal form of an integer of
    [0 .. 2^32 - 2] (no sign, no leading zero). *)
Definition array_index (k : string) : option N :=
  match k with
  | EmptyString => None
  | String "0" EmptyString => Some 0%N
  | String "0" _ => None
  | _ =>
      match digits_value k 0 with
      | Some n => if (n <? 2 ^ 32 - 1)%N then Some n else None
      | None => None
      end
  end.

Definition is_array_index (k : string) : bool :=
  match array_index k with Some _ => true | None => false end.

(** The property [kv] has an array-index key, or another string key. *)
Definition index_key (kv : string * value) : Prop :=
  is_array_index (fst kv) = true.
Definition other_key (kv : string * value) : Prop :=
  is_array_index (fst kv) = false.

#[global] Instance index_key_dec kv : Decision (index_key kv).
Proof. unfold index_key. apply _. Defined.
#[global] Instance other_key_dec kv : Decision (other_key kv).
Proof. unfold other_key. apply _. Defined.

Definition index_le (p q : string * value) : Prop :=
  (default 0 (array_index (fst p)) <= default 0 (array_index (fst q)))%N.

#[global] Instance index_le_dec p q : Decision (index_le p q).
Proof. unfold index_le. apply _. Defined.

(** [Object.entries(o)], in the order of OrdinaryOwnPropertyKeys: the
    array-index keys in ascending numeric order, then the other string
    keys in creation order. *)
Definition Object_entries (o : JsObject) : list (string * value) :=
  merge_sort index_le (filter index_key o) ++ filter other_key o.

(** ** The host: runtime built-ins and GNOME objects *)

Record URL := { href : string }.

(** [GLib.Bytes]: [get_data()] yields a [Uint8Array] or [null]. *)
Record GBytes := { get_data : option (list byte) }.

(** The [Gio.AsyncResult] handed to the completion callback. *)
Definition AsyncResult := nat.

(** [Soup.Session], seen from the completion callback:
    [send_and_read_finish(res)] returns the body bytes (or [null]) or
    throws the error of the transfer. *)
Record Session := {
  send_and_read_finish : AsyncResult -> Exc (option GBytes)
}.

(** [Headers]: the header list of the object, that is, what its [append]
    calls have stored. What [get] and iteration show of it (names in
    lower case, sorted, values of one name joined) is derived from this
    list by the runtime. *)
Definition Headers := list (string * string).

(** [new Headers()] *)
Definition Headers_new : Headers := [].

Class Host := {
  (** [URL.canParse(url)]: [true] or [false], or the [TypeError] thrown
      when [url] cannot be converted to a string (a Symbol) *)
  URL_canParse : value -> Exc bool;
  (** [URL.parse(url)]; [None] is [null] *)
  URL_parse : value -> option URL;
  (** [s.toUpperCase()] *)
  String_toUpperCase : string -> string;
  (** [new TextDecoder().decode(bytes)] *)
  TextDecoder_decode : list byte -> string;
  (** [new TextEncoder().encode(s)] *)
  TextEncoder_encode : string -> list byte;
  (** [toString()] of the array returned by [bytes.get_data()]: the text
      the runtime makes of the bytes of an introspected array *)
  Uint8Array_toString : list byte -> string;
  (** [JSON.parse(s)]: the parsed value, or a thrown [SyntaxError] *)
  JSON_parse : string -> Exc value;
  (** [out.append(name, value)] on a [Headers] object with header list
      [out]: the header list after the call, or the [TypeError] thrown
      for a name or a value that is refused *)
  Headers_append : Headers -> string -> string -> Exc Headers
}.

(** [urlObject.toString()] *)
Definition URL_toString (u : URL) : string := href u.

(** ** Soup.Message *)

(** [Soup.MessageHeaders]: the lines in the order of the [append] calls. *)
Definition MessageHeaders := list (string * value).

Definition MessageHeaders_new : MessageHeaders := [].

(** [headers.append(name, value)]: adds a line, keeps the earlier ones. *)
Definition MessageHeaders_append (hs : MessageHeaders) (name : string)
    (v : value) : MessageHeaders :=
  hs ++ [(name, v)].

Module Message.
Record t := {
  method : string;
  uri : string;
  request_headers : MessageHeaders;
  (** content type and bytes given to [set_request_body_from_bytes] *)
  request_body : option (string * list byte);
  status_code : Z;
  reason_phrase : string;
  response_headers : list (string * string)
}.
End Message.

(** [Soup.Message.new(method, uri)] *)
Definition Message_new (method uri : string) : Message.t :=
  {| Message.method := method;
     Message.uri := uri;
     Message.request_headers := MessageHeaders_new;
     Message.request_body := None;
     Message.status_code := 0;
     Message.reason_phrase := "";
     Message.response_headers := [] |}.

(** [message.request_headers.append(key, value)] *)
Definition request_headers_append (m : Message.t) (key : string)
    (v : value) : Message.t :=
  {| Message.method := Message.method m;
     Message.uri := Message.uri m;
     Message.request_headers :=
       MessageHeaders_append (Message.request_headers m) key v;
     Message.request_body := Message.request_body m;
     Message.status_code := Message.status_code m;
     Message.reason_phrase := Message.reason_phrase m;
     Message.response_headers := Message.response_headers m |}.

(** [message.set_request_body_from_bytes(content_type, bytes)] *)
Definition set_request_body_from_bytes (m : Message.t) (content_type : string)
    (bytes : list byte) : Message.t :=
  {| Message.method := Message.method m;
     Message.uri := Message.uri m;
     Message.request_headers := Message.request_headers m;
     Message.request_body := Some (content_type, bytes);
     Message.status_code := Message.status_code m;
     Message.reason_phrase := Message.reason_phrase m;
     Message.response_headers := Message.response_headers m |}.

(** [GLib.PRIORITY_DEFAULT] *)
Definition PRIORITY_DEFAULT : Z := 0.

(** ** The Response-like object *)

(** [ReadableStream], as seen through the controller given to [start]. *)
Record ReadableStream := {
  chunks : list (list byte);
  closed : bool
}.

Definition controller_enqueue (s : ReadableStream) (chunk : list byte)
    : ReadableStream :=
  {| chunks := chunks s ++ [chunk]; closed := closed s |}.

Definition controller_close (s : ReadableStream) : ReadableStream :=
  {| chunks := chunks s; closed := true |}.

(** [new ReadableStream({ start })] runs [start] on the new stream. *)
Definition ReadableStream_new (start : ReadableStream -> ReadableStream)
    : ReadableStream :=
  start {| chunks := []; closed := false |}.

(** The arrow functions of the [response] literal, each with the
    variable it captures. *)
Inductive Closure : Type :=
| text_fn (responseBody : string)         (* async () => responseBody *)
| json_fn (responseBody : string)         (* async () => JSON.parse(responseBody) *)
| arrayBuffer_fn (responseBody : string)  (* async () => new TextEncoder().encode(responseBody) *)
| blob_fn (responseBody : string)         (* async () => new Blob([responseBody]) *)
| formData_fn (responseBody : string)     (* async () => { ...append("body", responseBody)... } *)
| clone_fn (response : loc).              (* () => response *)

Module Response.
Record t := {
  ok : bool;
  status : Z;
  statusText : string;
  headers : Headers;
  text : Closure;
  json : Closure;
  redirected : bool;
  type : string;
  url : string;
  bodyUsed : bool;
  arrayBuffer : Closure;
  blob : Closure;
  formData : Closure;
  clone : Closure;
  body : ReadableStream
}.
End Response.

(** The heap of [response] objects; [VResponse l] points into it. *)
Definition Heap := list Response.t.

(** What a call returns: the value of a plain function, or the promise of
    an [async] function, fulfilled with the returned value or rejected
    with the thrown one. *)
Inductive Returned : Type :=
| Plain (v : value)
| PromiseOf (r : Exc value).

(** How the promise returned by the fetch function is settled. *)
Inductive Settlement : Type :=
| Resolve (v : value)
| Reject (e : value).

(** The completion callback [(session, res) => { ... }]. Its first
    argument is the state of the captured [message] object when the
    callback runs (the session has filled in the response side by then). *)
Definition Callback : Type :=
  Message.t -> option Session -> AsyncResult -> Heap -> Heap * Settlement.

(** The promise after its executor has run: already rejected, or waiting
    for [session.send_and_read_async(message, io_priority, null, callback)]. *)
Inductive Promise : Type :=
| Rejected (e : value)
| Pending (session : Session) (message : Message.t) (io_priority : Z)
    (callback : Callback).

Module RequestInit.
Record t := {
  method : option string;
  headers : option JsObject;
  body : value
}.
(** The default [options = {}]. *)
Definition empty : t :=
  {| method := None; headers := None; body := VUndefined |}.
End RequestInit.

Section Fetch.
Context `{Host}.

(** Calling one of the arrow functions. *)
Definition call (f : Closure) : Returned :=
  match f with
  | text_fn responseBody => PromiseOf (Normal (VString responseBody))
  | json_fn responseBody => PromiseOf (JSON_parse responseBody)
  | arrayBuffer_fn responseBody =>
      PromiseOf (Normal (VUint8Array (TextEncoder_encode responseBody)))
  | blob_fn responseBody => PromiseOf (Normal (VBlob [responseBody]))
  | formData_fn responseBody =>
      PromiseOf (Normal (VFormData [("body", responseBody)]))
  | clone_fn response => Plain (VResponse response)
  end.

(** [v.member()] for a member function of a response object; [None] when
    [v] is not a response of the heap. *)
Definition invoke (h : Heap) (v : value) (member : Response.t -> Closure)
    : option Returned :=
  match v with
  | VResponse l => r ← h !! l; Some (call (member r))
  | _ => None
  end.

(** Calling one of the arrow functions in the heap [h]: the heap the
    call leaves and what it returns. None of the arrow functions assigns
    to a variable or to a property, so each leaves the heap as it was. *)
Definition call_in (f : Closure) (h : Heap) : Heap * Returned :=
  (h, call f).

(** [v.member()] as a step: the heap after the call and its result. *)
Definition invoke_in (h : Heap) (v : value) (member : Response.t -> Closure)
    : option (Heap * Returned) :=
  match v with
  | VResponse l => r ← h !! l; Some (call_in (member r) h)
  | _ => None
  end.

(** Successive member calls on the same value, one after the other: each
    call runs in the heap the call before it has left. *)
Fixpoint invoke_all (h : Heap) (v : value)
    (members : list (Response.t -> Closure)) : list (option Returned) :=
  match members with
  | [] => []
  | member :: members' =>
      match invoke_in h v member with
      | Some (h1, result) => Some result :: invoke_all h1 v members'
      | None => None :: invoke_all h v members'
      end
  end.

(** [bytes?.get_data()?.toString() ?? ""] *)
Definition responseBody_of (bytes : option GBytes) : string :=
  default "" (b ← bytes; d ← get_data b; Some (Uint8Array_toString d)).

(** [message.response_headers.foreach((name, value) => { out.append(name,
    value); })] from the line list [lines] on: the header list after the
    last line, or what the first throwing [append] throws. *)
Fixpoint foreach_append (lines : list (string * string)) (out : Headers)
    : Exc Headers :=
  match lines with
  | [] => Normal out
  | (name, v) :: lines' =>
      out' ← Headers_append out name v; foreach_append lines' out'
  end.

(** [responseHeaders()] *)
Definition responseHeaders (message : Message.t) : Exc Headers :=
  let out := Headers_new in
  foreach_append (Message.response_headers message) out.

(** The object literal bound to [response]; [headers] is what the call
    [responseHeaders()] in it has returned and [l] is the address the
    object gets, which the arrow function of [clone] captures. *)
Definition response_literal (urlString : string) (message : Message.t)
    (headers : Headers) (responseBody : string) (l : loc) : Response.t :=
  {| Response.ok :=
       (200 <=? Message.status_code message)%Z
       && (Message.status_code message <? 300)%Z;
     Response.status := Message.status_code message;
     Response.statusText := Message.reason_phrase message;
     Response.headers := headers;
     Response.text := text_fn responseBody;
     Response.json := json_fn responseBody;
     Response.redirected := false;
     Response.type := "default";
     Response.url := urlString;
     Response.bodyUsed := true;
     Response.arrayBuffer := arrayBuffer_fn responseBody;
     Response.blob := blob_fn responseBody;
     Response.formData := formData_fn responseBody;
     Response.clone := clone_fn l;
     Response.body :=
       ReadableStream_new (fun controller =>
         controller_close
           (controller_enqueue controller
              (TextEncoder_encode responseBody))) |}.

(** The body of the [try] block of the completion callback: the heap
    after allocating [response], and the value given to [resolve]. It
    throws when there is no session, when [send_and_read_finish] throws
    and when an [append] of [responseHeaders()] throws. *)
Definition callback_try (urlString : string) (message : Message.t)
    (session : option Session) (res : AsyncResult) (h : Heap)
    : Exc (Heap * value) :=
  session ← match session with
            | None => Throw (Error "Session is required")
            | Some s => Normal s
            end;
  bytes ← send_and_read_finish session res;
  let responseBody := responseBody_of bytes in
  let l : loc := length h in
  headers ← responseHeaders message;
  let response :=
    response_literal urlString message headers responseBody l in
  Normal (h ++ [response], VResponse l).

(** [try { ...; resolve(response) } catch (e) { reject(e) }] *)
Definition callback (urlString : string) : Callback :=
  fun message session res h =>
    match callback_try urlString message session res h with
    | Normal (h', response) => (h', Resolve response)
    | Throw e => (h, Reject e)
    end.

(** The part of the executor from [// Prepare headers] to [// Set body]:
    the message built for the upper-cased [method], the parsed URL and the
    accepted [body]. *)
Definition sent_message (method urlString : string)
    (options : RequestInit.t) (body : option string) : Message.t :=
  (* the local [headers] collection is filled and never read *)
  let headers :=
    match RequestInit.headers options with
    | Some o =>
        fold_left (fun hs kv => MessageHeaders_append hs (fst kv) (snd kv))
          (Object_entries o) MessageHeaders_new
    | None => MessageHeaders_new
    end in
  let message := Message_new method urlString in
  let message :=
    fold_left (fun m kv => request_headers_append m (fst kv) (snd kv))
      (Object_entries (default [] (RequestInit.headers options)))
      message in
  match body with
  | Some b =>
      if ToBoolean (VString b)
      then set_request_body_from_bytes message "text/plain"
             (TextEncoder_encode b)
      else message
  | None => message
  end.

(** [options.method ? options.method.toUpperCase() : "GET"] *)
Definition method_of (options : RequestInit.t) : string :=
  match RequestInit.method options with
  | Some m => if ToBoolean (VString m) then String_toUpperCase m else "GET"
  | None => "GET"
  end.

(** The executor [(resolve, reject) => { ... }] of the returned promise. *)
Definition executor (session : Session) (urlString : string)
    (options : RequestInit.t) : Promise :=
  let method := method_of options in
  let coerced : value + option string :=
    if ToBoolean (RequestInit.body options) then
      match RequestInit.body options with
      | VString s => inr (Some s)
      | VUint8Array bytes => inr (Some (TextDecoder_decode bytes))
      | other =>
          inl (ErrorWithCause
                 ("Unsupported body type. Expected a string or Uint8Array, got "
                  +:+ typeof other +:+ ".") other)
      end
    else inr None in
  match coerced with
  | inl e => Rejected e
  | inr body =>
      Pending session (sent_message method urlString options body)
        PRIORITY_DEFAULT (callback urlString)
  end.

(** The function returned by [makeFetch(session)]: [(url, options = {}) =>
    ...]. [Throw] is a synchronous throw, before [new Promise]. *)
Definition fetch (session : Session) (url : value) (options : RequestInit.t)
    : Exc Promise :=
  canParse ← URL_canParse url;
  let urlObject := if canParse : bool then URL_parse url else None in
  match urlObject with
  | None =>
      Throw (Error ("Invalid URL. Expected a string or URL object, got "
                    +:+ typeof url
                    +:+ ". This failed because URL.canParse returned false."))
  | Some urlObject =>
      let urlString := URL_toString urlObject in
      Normal (executor session urlString options)
  end.

(** [makeFetch(session)] *)
Definition makeFetch (session : option Session)
    : Exc (value -> RequestInit.t -> Exc Promise) :=
  match session with
  | None => Throw (Error "Session is required")
  | Some session => Normal (fetch session)
  end.

(** One exchange from the caller's side: the call, then the session
    completing the transfer with the callback's arguments. The result is
    a synchronous throw or the settlement of the returned promise. *)
Definition exchange (session : Session) (url : value)
    (options : RequestInit.t) (completed : Message.t)
    (source : option Session) (res : AsyncResult) (h : Heap)
    : Exc (Heap * Settlement) :=
  p ← fetch session url options;
  match p with
  | Rejected e => Normal (h, Reject e)
  | Pending _ _ _ cb => Normal (cb completed source res h)
  end.

End Fetch.

(** ** A host and a session for examples

    A small stand-in for the runtime, for ASCII payloads: URLs are the
    strings that start with [http://] or [https://] and the URL objects,
    a Symbol makes [URL.canParse] throw, text is encoded byte for byte,
    [JSON.parse] knows three texts, and [Headers.append] trims the value
    and refuses a name that is not a token and a value with a NUL, CR or
    LF in it. *)
Module TestHost.

Definition has_scheme (s : string) : bool :=
  String.prefix "http://" s || String.prefix "https://" s.

Definition canParse (v : value) : Exc bool :=
  match v with
  | VString s => Normal (has_scheme s)
  | VURL _ => Normal true
  | VSymbol _ =>
      Throw (VError "TypeError" "can't convert symbol to string" None)
  | _ => Normal false
  end.

Definition parse (v : value) : option URL :=
  match v with
  | VString s => if has_scheme s then Some {| href := s |} else None
  | VURL h => Some {| href := h |}
  | _ => None
  end.

Definition upper (a : ascii) : ascii :=
  let n := N_of_ascii a in
  if ((97 <=? n) && (n <=? 122))%N then ascii_of_N (n - 32) else a.

Fixpoint toUpperCase (s : string) : string :=
  match s with
  | EmptyString => EmptyString
  | String a s' => String (upper a) (toUpperCase s')
  end.

Definition parseJSON (s : string) : Exc value :=
  if String.eqb s "{}" then Normal (VObject [])
  else if String.eqb s "[]" then Normal (VArray [])
  else if String.eqb s "null" then Normal VNull
  else Throw (VError "SyntaxError" "JSON.parse: unexpected character" None).

(** The characters of a token (RFC 9110). *)
Definition is_tchar (a : ascii) : bool :=
  let n := N_of_ascii a in
  ((48 <=? n) && (n <=? 57))%N || ((65 <=? n) && (n <=? 90))%N
  || ((97 <=? n) && (n <=? 122))%N
  || existsb (N.eqb n)
       [33; 35; 36; 37; 38; 39; 42; 43; 45; 46; 94; 95; 96; 124; 126]%N.

Definition is_http_whitespace (a : ascii) : bool :=
  existsb (N.eqb (N_of_ascii a)) [9; 10; 13; 32]%N.

Definition is_nul_cr_lf (a : ascii) : bool :=
  existsb (N.eqb (N_of_ascii a)) [0; 10; 13]%N.

Fixpoint drop_while (p : ascii -> bool) (l : list ascii) : list ascii :=
  match l with
  | [] => []
  | a :: l' => if p a then drop_while p l' else l
  end.

Definition trim (s : string) : string :=
  string_of_list_ascii
    (rev (drop_while is_http_whitespace
            (rev (drop_while is_http_whitespace (list_ascii_of_string s))))).

Definition is_header_name (s : string) : bool :=
  negb (String.eqb s "") && forallb is_tchar (list_ascii_of_string s).

Definition is_header_value (s : string) : bool :=
  forallb (fun a => negb (is_nul_cr_lf a)) (list_ascii_of_string s).

(** The spelling under which a name is stored: that of the first line
    with the same name, case aside, if there is one. *)
Definition stored_name (hs : Headers) (name : string) : string :=
  match
    List.find
      (fun kv => String.eqb (toUpperCase (fst kv)) (toUpperCase name)) hs
  with
  | Some kv => fst kv
  | None => name
  end.

Definition append (hs : Headers) (name v : string) : Exc Headers :=
  if is_header_name name && is_header_value (trim v)
  then Normal (hs ++ [(stored_name hs name, trim v)])
  else Throw (VError "TypeError" "Headers.append: invalid header" None).

Definition host : Host :=
  {| URL_canParse := canParse;
     URL_parse := parse;
     String_toUpperCase := toUpperCase;
     TextDecoder_decode := string_of_list_byte;
     TextEncoder_encode := list_byte_of_string;
     Uint8Array_toString := string_of_list_byte;
     JSON_parse := parseJSON;
     Headers_append := append |}.

(** A session whose transfers all end with the body [{}]. *)
Definition session : Session :=
  {| send_and_read_finish := fun _ =>
       Normal (Some {| get_data := Some (list_byte_of_string "{}") |}) |}.

(** A session whose transfers end with [null] instead of bytes. *)
Definition session_null : Session :=
  {| send_and_read_finish := fun _ => Normal None |}.

(** A session whose transfers all fail. *)
Definition transport_error : value :=
  VError "GLib.Error" "Could not connect: Connection refused" None.

Definition session_failing : Session :=
  {| send_and_read_finish := fun _ => Throw transport_error |}.

(** The [message] object once a transfer has completed with the given
    status line. *)
Definition completed (status_code : Z) (reason_phrase : string)
    (m : Message.t) : Message.t :=
  {| Message.method := Message.method m;
     Message.uri := Message.uri m;
     Message.request_headers := Message.request_headers m;
     Message.request_body := Message.request_body m;
     Message.status_code := status_code;
     Message.reason_phrase := reason_phrase;
     Message.response_headers := [("Content-Type", "application/json")] |}.

Definition with_body (body : value) : RequestInit.t :=
  {| RequestInit.method := None;
     RequestInit.headers := None;
     RequestInit.body := body |}.

Definition with_headers (o : JsObject) : RequestInit.t :=
  {| RequestInit.method := None;
     RequestInit.headers := Some o;
     RequestInit.body := VUndefined |}.

(** The URL of the examples. *)
Definition target : value := VString "https://x/y".
Definition target_url : URL := {| href := "https://x/y" |}.

(** The message a default-options call sends, and the same message once
    the transfer has completed with [status_code]. *)
Definition get_message (options : RequestInit.t) (body : option string)
    : Message.t :=
  sent_message (H := host) (method_of (H := host) options) "https://x/y"
    options body.

Definition done (status_code : Z) (reason_phrase : string) : Message.t :=
  completed status_code reason_phrase (get_message RequestInit.empty None).

(** The response allocated at address 0 of an empty heap. *)
Definition response0 (status_code : Z) (reason_phrase payload : string)
    : Response.t :=
  response_literal (H := host) "https://x/y" (done status_code reason_phrase)
    [("Content-Type", "application/json")] payload 0.

Definition plain_headers : JsObject :=
  obj_literal [("X", VString "1"); ("Accept", VString "text/html")].

Definition numbered_headers : JsObject :=
  obj_literal
    [("X-B", VString "b"); ("2", VString "two"); ("1", VString "one")].

(** The response a second exchange allocates, at address 1. *)
Definition response1 (status_code : Z) (reason_phrase payload : string)
    : Response.t :=
  response_literal (H := host) "https://x/y" (done status_code reason_phrase)
    [("Content-Type", "application/json")] payload 1.

(** A completed message with a response header whose name is not a
    token. *)
Definition done_refused : Message.t :=
  {| Message.method := "GET";
     Message.uri := "https://x/y";
     Message.request_headers := [];
     Message.request_body := None;
     Message.status_code := 200;
     Message.reason_phrase := "OK";
     Message.response_headers := [("X(A)", "1")] |}.

Definition refused_error : value :=
  VError "TypeError" "Headers.append: invalid header" None.

(** A completed message with three header lines, two of one name. *)
Definition done_three_lines : Message.t :=
  {| Message.method := "GET";
     Message.uri := "https://x/y";
     Message.request_headers := [];
     Message.request_body := None;
     Message.status_code := 200;
     Message.reason_phrase := "OK";
     Message.response_headers :=
       [("X-B", "1"); ("X-A", " 2 "); ("x-b", "3")] |}.

(** A session whose transfers end with an empty array of bytes. *)
Definition session_empty : Session :=
  {| send_and_read_finish := fun _ => Normal (Some {| get_data := Some [] |}) |}.

End TestHost.

(** ** Predicates used in the statements *)

(** [typeof v === "string" || v instanceof Uint8Array] *)
Definition string_or_bytes (v : value) : bool :=
  match v with
  | VString _ | VUint8Array _ => true
  | _ => false
  end.

(** [needle] occurs in [s]. *)
Definition occurs_in (needle s : string) : bool :=
  match String.index 0 needle s with Some _ => true | None => false end.

(** An error tells which value was refused: the value is its [cause], or,
    for a string, its text is part of the message. *)
Definition names_value (e v : value) : Prop :=
  match e with
  | VError _ message cause =>
      cause = Some v
      \/ (exists s, v = VString s /\ occurs_in s message = true)
  | _ => False
  end.

(** An error tells the type of the refused value: [typeof v] is part of
    its message. *)
Definition names_type (e v : value) : Prop :=
  match e with
  | VError _ message _ => occurs_in (typeof v) message = true
  | _ => False
  end.

(** ** Properties *)

(** *** [Object.entries] *)

Section ObjectEntries.

#[global] Instance index_le_total : Total index_le.
Proof. intros p q. unfold index_le. lia. Qed.

Lemma filter_all {A} (P : A -> Prop) `{!forall x, Decision (P x)} (l : list A) :
  Forall P l -> filter P l = l.
Proof.
  induction 1 as [|x l Hx _ IH]; [easy|].
  rewrite filter_cons_True by easy. now rewrite IH.
Qed.

Lemma filter_none {A} (P : A -> Prop) `{!forall x, Decision (P x)} (l : list A) :
  Forall (fun x => ~ P x) l -> filter P l = [].
Proof.
  induction 1 as [|x l Hx _ IH]; [easy|].
  now rewrite filter_cons_False.
Qed.

Lemma Forall_filter_self {A} (P : A -> Prop) `{!forall x, Decision (P x)}
    (l : list A) :
  Forall P (filter P l).
Proof.
  induction l as [|x l IH]; [constructor|].
  destruct (decide (P x)).
  - rewrite filter_cons_True by easy. now constructor.
  - now rewrite filter_cons_False.
Qed.

Lemma index_partition (o : JsObject) :
  filter index_key o ++ filter other_key o ≡ₚ o.
Proof.
  induction o as [|kv o IH]; [easy|].
  destruct (is_array_index (fst kv)) eqn:E.
  - rewrite (filter_cons_True index_key), (filter_cons_False other_key)
      by (unfold index_key, other_key; congruence).
    simpl. now rewrite IH.
  - rewrite (filter_cons_False index_key), (filter_cons_True other_key)
      by (unfold index_key, other_key; congruence).
    rewrite <- Permutation_middle. now rewrite IH.
Qed.

Lemma Object_entries_Permutation (o : JsObject) : Object_entries o ≡ₚ o.
Proof.
  unfold Object_entries. rewrite merge_sort_Permutation.
  apply index_partition.
Qed.

Lemma sorted_indices_are_indices (o : JsObject) :
  Forall index_key (merge_sort index_le (filter index_key o)).
Proof.
  rewrite merge_sort_Permutation. apply Forall_filter_self.
Qed.

Lemma Object_entries_indices (o : JsObject) :
  filter index_key (Object_entries o)
  = merge_sort index_le (filter index_key o).
Proof.
  unfold Object_entries. rewrite filter_app.
  rewrite (filter_all _ _ (sorted_indices_are_indices o)).
  rewrite filter_none; [apply app_nil_r|].
  eapply Forall_impl; [apply (Forall_filter_self other_key)|].
  unfold index_key, other_key. intros kv E. congruence.
Qed.

Lemma Object_entries_others (o : JsObject) :
  filter other_key (Object_entries o) = filter other_key o.
Proof.
  unfold Object_entries. rewrite filter_app.
  rewrite (filter_none other_key (merge_sort index_le (filter index_key o))).
  - simpl. apply filter_all, Forall_filter_self.
  - eapply Forall_impl; [apply sorted_indices_are_indices|].
    unfold index_key, other_key. intros kv E. congruence.
Qed.

Lemma Object_entries_no_index (o : JsObject) :
  Forall other_key o -> Object_entries o = o.
Proof.
  intros Hno. unfold Object_entries.
  rewrite (filter_all other_key _ Hno).
  rewrite (filter_none index_key o); [easy|].
  eapply Forall_impl; [exact Hno|]. unfold index_key, other_key. intros kv E. congruence.
Qed.

End ObjectEntries.

Section Properties.
Context `{Host}.

(** *** The request side *)

Lemma fetch_unparseable (s : Session) (url : value) (options : RequestInit.t) :
  URL_canParse url = Normal false ->
  fetch s url options
  = Throw (Error ("Invalid URL. Expected a string or URL object, got "
                  +:+ typeof url
                  +:+ ". This failed because URL.canParse returned false.")).
Proof. intros Hcan. unfold fetch. now rewrite Hcan. Qed.

Lemma fetch_parsed (s : Session) (url : value) (options : RequestInit.t)
    (u : URL) :
  URL_canParse url = Normal true -> URL_parse url = Some u ->
  fetch s url options = Normal (executor s (href u) options).
Proof. intros Hcan Hparse. unfold fetch. now rewrite Hcan, Hparse. Qed.

Lemma fetch_normal_inv (s : Session) (url : value) (options : RequestInit.t)
    (p : Promise) :
  fetch s url options = Normal p ->
  exists u, URL_canParse url = Normal true /\ URL_parse url = Some u
            /\ p = executor s (href u) options.
Proof.
  unfold fetch. destruct (URL_canParse url) as [[|]|e]; simpl;
    try discriminate.
  destruct (URL_parse url) as [u|]; [|discriminate].
  intros [= <-]. now exists u.
Qed.

Lemma append_all_request_headers (l : list (string * value)) (m : Message.t) :
  Message.request_headers
    (fold_left (fun m kv => request_headers_append m (fst kv) (snd kv)) l m)
  = Message.request_headers m ++ l.
Proof.
  revert m. induction l as [|kv l IH]; intros m; simpl.
  - now rewrite app_nil_r.
  - rewrite IH. simpl. unfold MessageHeaders_append.
    rewrite <- app_assoc. simpl. now destruct kv.
Qed.

Lemma append_all_request_body (l : list (string * value)) (m : Message.t) :
  Message.request_body
    (fold_left (fun m kv => request_headers_append m (fst kv) (snd kv)) l m)
  = Message.request_body m.
Proof. revert m. induction l as [|kv l IH]; intros m; simpl; [|rewrite IH]; easy. Qed.

Lemma sent_message_headers method urlString options body :
  Message.request_headers (sent_message method urlString options body)
  = Object_entries (default [] (RequestInit.headers options)).
Proof.
  unfold sent_message.
  destruct body as [b|]; [destruct (ToBoolean (VString b))|]; simpl;
    now rewrite append_all_request_headers.
Qed.

Lemma sent_message_body method urlString options body :
  Message.request_body (sent_message method urlString options body)
  = match body with
    | Some b =>
        if String.eqb b "" then None
        else Some ("text/plain", TextEncoder_encode b)
    | None => None
    end.
Proof.
  unfold sent_message.
  destruct body as [b|]; simpl.
  - destruct (String.eqb b ""); simpl; [|easy].
    now rewrite append_all_request_body.
  - now rewrite append_all_request_body.
Qed.

Lemma executor_falsy_body s urlString options :
  ToBoolean (RequestInit.body options) = false ->
  executor s urlString options
  = Pending s (sent_message (method_of options) urlString options None) PRIORITY_DEFAULT
      (callback urlString).
Proof. intros Hf. unfold executor. now rewrite Hf. Qed.

Lemma executor_string_body s urlString options str :
  RequestInit.body options = VString str ->
  executor s urlString options
  = Pending s
      (sent_message (method_of options) urlString options
         (if String.eqb str "" then None else Some str))
      PRIORITY_DEFAULT (callback urlString).
Proof.
  intros Hb. unfold executor. rewrite Hb. simpl.
  now destruct (String.eqb str "").
Qed.

Lemma executor_bytes_body s urlString options bytes :
  RequestInit.body options = VUint8Array bytes ->
  executor s urlString options
  = Pending s
      (sent_message (method_of options) urlString options (Some (TextDecoder_decode bytes)))
      PRIORITY_DEFAULT (callback urlString).
Proof. intros Hb. unfold executor. now rewrite Hb. Qed.

Lemma executor_unsupported_body s urlString options :
  ToBoolean (RequestInit.body options) = true ->
  string_or_bytes (RequestInit.body options) = false ->
  executor s urlString options
  = Rejected
      (ErrorWithCause
         ("Unsupported body type. Expected a string or Uint8Array, got "
          +:+ typeof (RequestInit.body options) +:+ ".")
         (RequestInit.body options)).
Proof.
  intros Ht Hs. unfold executor. rewrite Ht.
  destruct (RequestInit.body options); simpl in Hs; try discriminate; easy.
Qed.

Lemma executor_pending_inv s urlString options s' m prio cb :
  executor s urlString options = Pending s' m prio cb ->
  s' = s /\ prio = PRIORITY_DEFAULT /\ cb = callback urlString
  /\ exists body, m = sent_message (method_of options) urlString options body.
Proof.
  destruct (ToBoolean (RequestInit.body options)) eqn:Ht.
  - destruct (string_or_bytes (RequestInit.body options)) eqn:Hs.
    + destruct (RequestInit.body options) eqn:Hb; simpl in Hs;
        try discriminate.
      * rewrite (executor_string_body _ _ _ _ Hb).
        remember (sent_message _ _ _ _) as m0 eqn:Em0.
        intros E. injection E as <- <- <- <-. subst m0. split_and!; eauto.
      * rewrite (executor_bytes_body _ _ _ _ Hb).
        remember (sent_message _ _ _ _) as m0 eqn:Em0.
        intros E. injection E as <- <- <- <-. subst m0. split_and!; eauto.
    + now rewrite (executor_unsupported_body _ _ _ Ht Hs).
  - rewrite (executor_falsy_body _ _ _ Ht).
    remember (sent_message _ _ _ _) as m0 eqn:Em0.
        intros E. injection E as <- <- <- <-. subst m0. split_and!; eauto.
Qed.

Lemma typeof_occurs_in_invalid_url_message (v : value) :
  occurs_in (typeof v)
    ("Invalid URL. Expected a string or URL object, got " +:+ typeof v
     +:+ ". This failed because URL.canParse returned false.") = true.
Proof. destruct v; reflexivity. Qed.

Lemma typeof_occurs_in_unsupported_body_message (v : value) :
  occurs_in (typeof v)
    ("Unsupported body type. Expected a string or Uint8Array, got "
     +:+ typeof v +:+ ".") = true.
Proof. destruct v; reflexivity. Qed.

(** C4 (amended). A [url] that [URL.canParse] refuses makes the call throw
    synchronously: the result is a [Throw], no promise is built and
    nothing is sent. The error is an [Error] without cause whose message
    names [typeof url]; it does not depend on the value otherwise, so two
    refused values of one type raise the same error. *)
Theorem invalid_url_throws_synchronously (s : Session) (url : value)
    (options : RequestInit.t) :
  URL_canParse url = Normal false ->
  let e := Error ("Invalid URL. Expected a string or URL object, got "
                  +:+ typeof url
                  +:+ ". This failed because URL.canParse returned false.") in
  fetch s url options = Throw e
  /\ names_type e url
  /\ (forall s' url' options',
        URL_canParse url' = Normal false -> typeof url' = typeof url ->
        fetch s' url' options' = Throw e).
Proof.
  intros Hcan e. split_and!.
  - now apply fetch_unparseable.
  - apply typeof_occurs_in_invalid_url_message.
  - intros s' url' options' Hcan' Hty. subst e. rewrite <- Hty.
    now apply fetch_unparseable.
Qed.

(** C2 (amended). With a parseable URL, a truthy [body] that is neither a
    string nor a [Uint8Array] makes the call return a promise that the
    executor rejects (no synchronous throw) with an [Error] whose message
    names [typeof body] and whose [cause] is the body itself; a falsy
    [body] counts as no body: the request is sent without one. *)
Theorem unsupported_truthy_body_rejects (s : Session) (url : value)
    (options : RequestInit.t) (u : URL) :
  URL_canParse url = Normal true -> URL_parse url = Some u ->
  let body := RequestInit.body options in
  (ToBoolean body = true -> string_or_bytes body = false ->
   let e := ErrorWithCause
              ("Unsupported body type. Expected a string or Uint8Array, got "
               +:+ typeof body +:+ ".") body in
   fetch s url options = Normal (Rejected e)
   /\ names_value e body /\ names_type e body)
  /\ (ToBoolean body = false ->
      exists m cb,
        fetch s url options = Normal (Pending s m PRIORITY_DEFAULT cb)
        /\ Message.request_body m = None).
Proof.
  intros Hcan Hparse body. rewrite (fetch_parsed _ _ _ _ Hcan Hparse). split.
  - intros Ht Hs e. split_and!.
    + now rewrite (executor_unsupported_body _ _ _ Ht Hs).
    + simpl. now left.
    + apply typeof_occurs_in_unsupported_body_message.
  - intros Hf. rewrite (executor_falsy_body _ _ _ Hf).
    eexists _, _. split; [reflexivity|].
    now rewrite sent_message_body.
Qed.

(** C3 (amended). With a parseable URL, a non-empty string body is sent
    as its encoding, and a [Uint8Array] whose decoding is non-empty is
    sent as the encoding of that decoding, both under the content type
    [text/plain]; an empty string, or bytes that decode to the empty
    string, attach no body and no content type. *)
Theorem body_is_sent_as_text_plain (s : Session) (url : value)
    (options : RequestInit.t) (u : URL) :
  URL_canParse url = Normal true -> URL_parse url = Some u ->
  (forall str, RequestInit.body options = VString str ->
     exists m cb,
       fetch s url options = Normal (Pending s m PRIORITY_DEFAULT cb)
       /\ Message.request_body m
          = if String.eqb str "" then None
            else Some ("text/plain", TextEncoder_encode str))
  /\ (forall bytes, RequestInit.body options = VUint8Array bytes ->
     exists m cb,
       fetch s url options = Normal (Pending s m PRIORITY_DEFAULT cb)
       /\ Message.request_body m
          = if String.eqb (TextDecoder_decode bytes) "" then None
            else Some ("text/plain",
                       TextEncoder_encode (TextDecoder_decode bytes))).
Proof.
  intros Hcan Hparse. rewrite (fetch_parsed _ _ _ _ Hcan Hparse). split.
  - intros str Hb. rewrite (executor_string_body _ _ _ _ Hb).
    eexists _, _. split; [reflexivity|].
    rewrite sent_message_body. now destruct (String.eqb str "") eqn:E; [|rewrite E].
  - intros bytes Hb. rewrite (executor_bytes_body _ _ _ _ Hb).
    eexists _, _. split; [reflexivity|].
    now rewrite sent_message_body.
Qed.

Lemma executor_sends s urlString options :
  ToBoolean (RequestInit.body options) = false
  \/ string_or_bytes (RequestInit.body options) = true ->
  exists body,
    executor s urlString options
    = Pending s (sent_message (method_of options) urlString options body)
        PRIORITY_DEFAULT (callback urlString).
Proof.
  intros [Hf|Hs].
  - rewrite (executor_falsy_body _ _ _ Hf). eauto.
  - destruct (RequestInit.body options) eqn:Hb; simpl in Hs; try discriminate.
    + rewrite (executor_string_body _ _ _ _ Hb). eauto.
    + rewrite (executor_bytes_body _ _ _ _ Hb). eauto.
Qed.

(** C7 (amended). With a parseable URL and a body that is not refused, the
    request is sent and its outgoing header collection is exactly
    [Object.entries(options.headers)], each entry appended to the empty
    collection of the new message: a line for every property of the
    mapping and no other, none overwritten; the array-index keys come
    first, in ascending numeric order, then the other keys in insertion
    order. When no key is an array index this is the insertion order of
    the mapping. *)
Theorem headers_are_appended_in_entries_order (s : Session) (url : value)
    (options : RequestInit.t) (u : URL) (o : JsObject) :
  URL_canParse url = Normal true -> URL_parse url = Some u ->
  RequestInit.headers options = Some o ->
  ToBoolean (RequestInit.body options) = false
  \/ string_or_bytes (RequestInit.body options) = true ->
  exists m cb,
    fetch s url options = Normal (Pending s m PRIORITY_DEFAULT cb)
    /\ let sent := Message.request_headers m in
       sent = Object_entries o
       /\ (forall kv, kv ∈ sent <-> kv ∈ o)
       /\ length sent = length o
       /\ sent = filter index_key sent ++ filter other_key sent
       /\ Sorted index_le (filter index_key sent)
       /\ filter other_key sent = filter other_key o
       /\ (Forall other_key o -> sent = o).
Proof.
  intros Hcan Hparse Ho Hbody.
  rewrite (fetch_parsed _ _ _ _ Hcan Hparse).
  destruct (executor_sends s (href u) options Hbody) as [body ->].
  eexists _, _. split; [reflexivity|]. intros sent.
  assert (Hsent : sent = Object_entries o).
  { subst sent. rewrite sent_message_headers. now rewrite Ho. }
  rewrite Hsent. split_and!.
  - reflexivity.
  - intros kv. now rewrite Object_entries_Permutation.
  - now rewrite Object_entries_Permutation.
  - rewrite Object_entries_indices, Object_entries_others. reflexivity.
  - rewrite Object_entries_indices. apply Sorted_merge_sort, index_le_total.
  - apply Object_entries_others.
  - apply Object_entries_no_index.
Qed.

(** *** The response side *)

Lemma callback_try_finished urlString message sess res h bytes hs :
  send_and_read_finish sess res = Normal bytes ->
  responseHeaders message = Normal hs ->
  callback_try urlString message (Some sess) res h
  = Normal (h ++ [response_literal urlString message hs
                    (responseBody_of bytes) (length h)],
            VResponse (length h)).
Proof.
  intros Hfin Hhs. unfold callback_try. simpl. rewrite Hfin. simpl.
  now rewrite Hhs.
Qed.

Lemma callback_try_refused urlString message sess res h bytes e :
  send_and_read_finish sess res = Normal bytes ->
  responseHeaders message = Throw e ->
  callback_try urlString message (Some sess) res h = Throw e.
Proof.
  intros Hfin Hhs. unfold callback_try. simpl. rewrite Hfin. simpl.
  now rewrite Hhs.
Qed.

Lemma callback_try_failed urlString message sess res h e :
  send_and_read_finish sess res = Throw e ->
  callback_try urlString message (Some sess) res h = Throw e.
Proof. intros Hfin. unfold callback_try. simpl. now rewrite Hfin. Qed.

Lemma callback_try_normal_inv urlString message source res h h' v :
  callback_try urlString message source res h = Normal (h', v) ->
  exists sess bytes hs,
    source = Some sess /\ send_and_read_finish sess res = Normal bytes
    /\ responseHeaders message = Normal hs
    /\ h' = h ++ [response_literal urlString message hs
                    (responseBody_of bytes) (length h)]
    /\ v = VResponse (length h).
Proof.
  unfold callback_try. destruct source as [sess|]; simpl; [|discriminate].
  destruct (send_and_read_finish sess res) as [bytes|e] eqn:Hfin; simpl;
    [|discriminate].
  destruct (responseHeaders message) as [hs|e] eqn:Hhs; simpl;
    [|discriminate].
  intros [= <- <-]. now exists sess, bytes, hs.
Qed.

Lemma callback_catch urlString message source res h e :
  callback_try urlString message source res h = Throw e ->
  callback urlString message source res h = (h, Reject e).
Proof. intros Hthrow. unfold callback. now rewrite Hthrow. Qed.

Lemma callback_resolve_inv urlString message source res h h' v :
  callback urlString message source res h = (h', Resolve v) ->
  callback_try urlString message source res h = Normal (h', v).
Proof.
  unfold callback.
  destruct (callback_try urlString message source res h) as [[h0 v0]|e];
    [|discriminate].
  now intros [= <- <-].
Qed.

Lemma lookup_allocated (h : Heap) (r : Response.t) :
  (h ++ [r]) !! length h = Some r.
Proof. now apply list_lookup_middle. Qed.

(** A resolved exchange: what the caller got and how it came about. *)
Lemma exchange_resolved_inv s url options completed source res h h' v :
  exchange s url options completed source res h = Normal (h', Resolve v) ->
  exists u sess bytes hs,
    URL_parse url = Some u
    /\ source = Some sess
    /\ send_and_read_finish sess res = Normal bytes
    /\ responseHeaders completed = Normal hs
    /\ h' = h ++ [response_literal (href u) completed hs
                    (responseBody_of bytes) (length h)]
    /\ v = VResponse (length h).
Proof.
  unfold exchange.
  destruct (fetch s url options) as [p|e] eqn:Hfetch; simpl; [|discriminate].
  destruct (fetch_normal_inv _ _ _ _ Hfetch) as (u & _ & Hparse & ->).
  destruct (executor s (href u) options) as [e|s' m prio cb] eqn:Hexec;
    [discriminate|].
  apply executor_pending_inv in Hexec. destruct Hexec as (_ & _ & -> & _).
  intros [= Hcb]. apply callback_resolve_inv in Hcb.
  apply callback_try_normal_inv in Hcb.
  destruct Hcb as (sess & bytes & hs & -> & Hfin & Hhs & -> & ->).
  now exists u, sess, bytes, hs.
Qed.

Lemma invoke_allocated (h : Heap) (r : Response.t)
    (member : Response.t -> Closure) :
  invoke (h ++ [r]) (VResponse (length h)) member = Some (call (member r)).
Proof. unfold invoke. now rewrite lookup_allocated. Qed.

Lemma invoke_in_leaves_heap (h : Heap) (v : value)
    (member : Response.t -> Closure) :
  invoke_in h v member = (fun result => (h, result)) <$> invoke h v member.
Proof.
  unfold invoke_in, invoke. destruct v; try reflexivity.
  now destruct (h !! l).
Qed.

Lemma invoke_all_cons (h : Heap) (v : value)
    (member : Response.t -> Closure) (members : list (Response.t -> Closure)) :
  invoke_all h v (member :: members)
  = invoke h v member :: invoke_all h v members.
Proof.
  simpl. rewrite invoke_in_leaves_heap.
  now destruct (invoke h v member).
Qed.

Lemma invoke_all_replicate (h : Heap) (v : value)
    (member : Response.t -> Closure) (n : nat) :
  invoke_all h v (replicate n member) = replicate n (invoke h v member).
Proof.
  induction n as [|n IH]; [reflexivity|].
  change (replicate (S n) member) with (member :: replicate n member).
  now rewrite invoke_all_cons, IH.
Qed.

Lemma invoke_all_twice (h : Heap) (v : value)
    (member : Response.t -> Closure) :
  invoke_all h v [member; member] = [invoke h v member; invoke h v member].
Proof. now rewrite !invoke_all_cons. Qed.

(** C1. After a resolved exchange whose completion returned a byte buffer
    with data [d], the payload captured by the accessors of the response
    is the text [toString()] gives for [d], and each of any number of
    [text()] calls returns a promise fulfilled with exactly that text. *)
Theorem text_returns_the_decoded_buffer (s : Session) (url : value)
    (options : RequestInit.t) (completed : Message.t) (sess : Session)
    (res : AsyncResult) (h h' : Heap) (v : value) (b : GBytes)
    (d : list byte) :
  exchange s url options completed (Some sess) res h
  = Normal (h', Resolve v) ->
  send_and_read_finish sess res = Normal (Some b) ->
  get_data b = Some d ->
  exists l r,
    v = VResponse l /\ h' !! l = Some r
    /\ Response.text r = text_fn (Uint8Array_toString d)
    /\ Response.json r = json_fn (Uint8Array_toString d)
    /\ chunks (Response.body r)
       = [TextEncoder_encode (Uint8Array_toString d)]
    /\ forall n,
         invoke_all h' v (replicate n Response.text)
         = replicate n
             (Some (PromiseOf (Normal (VString (Uint8Array_toString d))))).
Proof.
  intros Hex Hfin Hdata.
  apply exchange_resolved_inv in Hex.
  destruct Hex as (u & sess' & bytes & hs & _ & [= <-] & Hfin' & _ & -> & ->).
  rewrite Hfin in Hfin'. injection Hfin' as <-.
  assert (Hbody : responseBody_of (Some b) = Uint8Array_toString d).
  { unfold responseBody_of. simpl. now rewrite Hdata. }
  eexists _, _. split; [reflexivity|]. split; [apply lookup_allocated|].
  rewrite Hbody. split_and!; try reflexivity.
  intros n. rewrite invoke_all_replicate. now rewrite invoke_allocated.
Qed.

(** C5. The [ok] field of a resolved response is
    [200 <= status && status < 300] for the status code of the completed
    message: false for 404, true for 204. *)
Theorem ok_is_status_in_2xx (s : Session) (url : value)
    (options : RequestInit.t) (completed : Message.t)
    (source : option Session) (res : AsyncResult) (h h' : Heap) (v : value) :
  exchange s url options completed source res h = Normal (h', Resolve v) ->
  exists l r,
    v = VResponse l /\ h' !! l = Some r
    /\ Response.status r = Message.status_code completed
    /\ Response.ok r
       = ((200 <=? Response.status r) && (Response.status r <? 300))%Z
    /\ (Response.status r = 404%Z -> Response.ok r = false)
    /\ (Response.status r = 204%Z -> Response.ok r = true).
Proof.
  intros Hex. apply exchange_resolved_inv in Hex.
  destruct Hex as (u & sess & bytes & hs & _ & _ & _ & _ & -> & ->).
  eexists _, _. split; [reflexivity|]. split; [apply lookup_allocated|].
  simpl. split_and!; try reflexivity; now intros ->.
Qed.

(** C6. On a resolved response, [text()] and [json()] read one payload,
    the text buffered from the bytes that [send_and_read_finish]
    returned: both closures capture it, [text()] is fulfilled with it and
    [json()] is the outcome of [JSON.parse] on it (fulfilled with the
    parsed value, or rejected with what [JSON.parse] throws). Calling
    either twice in a row, or the two in turn, gives the same result each
    time. *)
Theorem text_and_json_read_one_payload (s : Session) (url : value)
    (options : RequestInit.t) (completed : Message.t)
    (source : option Session) (res : AsyncResult) (h h' : Heap) (v : value) :
  exchange s url options completed source res h = Normal (h', Resolve v) ->
  exists sess bytes l r,
    source = Some sess /\ send_and_read_finish sess res = Normal bytes
    /\ v = VResponse l /\ h' !! l = Some r
    /\ Response.text r = text_fn (responseBody_of bytes)
    /\ Response.json r = json_fn (responseBody_of bytes)
    /\ invoke h' v Response.text
       = Some (PromiseOf (Normal (VString (responseBody_of bytes))))
    /\ invoke h' v Response.json
       = Some (PromiseOf (JSON_parse (responseBody_of bytes)))
    /\ invoke_all h' v [Response.text; Response.text]
       = [Some (PromiseOf (Normal (VString (responseBody_of bytes))));
          Some (PromiseOf (Normal (VString (responseBody_of bytes))))]
    /\ invoke_all h' v [Response.json; Response.json]
       = [Some (PromiseOf (JSON_parse (responseBody_of bytes)));
          Some (PromiseOf (JSON_parse (responseBody_of bytes)))]
    /\ invoke_all h' v
         [Response.json; Response.text; Response.json; Response.text]
       = [Some (PromiseOf (JSON_parse (responseBody_of bytes)));
          Some (PromiseOf (Normal (VString (responseBody_of bytes))));
          Some (PromiseOf (JSON_parse (responseBody_of bytes)));
          Some (PromiseOf (Normal (VString (responseBody_of bytes))))].
Proof.
  intros Hex. apply exchange_resolved_inv in Hex.
  destruct Hex as (u & sess & bytes & hs & _ & -> & Hfin & _ & -> & ->).
  exists sess, bytes. eexists _, _.
  split; [reflexivity|]. split; [exact Hfin|].
  split; [reflexivity|]. split; [apply lookup_allocated|].
  rewrite !invoke_all_cons, !invoke_allocated. simpl.
  split_and!; reflexivity.
Qed.

(** C8. An error raised in the [try] block of the completion callback
    rejects the promise with that same value; so does, in particular, the
    error that [send_and_read_finish] throws for a failed transfer. *)
Theorem callback_error_rejects_unchanged (s : Session) (url : value)
    (options : RequestInit.t) (s' : Session) (m : Message.t) (prio : Z)
    (cb : Callback) (completed : Message.t) (source : option Session)
    (res : AsyncResult) (h : Heap) :
  fetch s url options = Normal (Pending s' m prio cb) ->
  (forall u e,
     URL_parse url = Some u ->
     callback_try (href u) completed source res h = Throw e ->
     cb completed source res h = (h, Reject e))
  /\ (forall sess e,
        source = Some sess -> send_and_read_finish sess res = Throw e ->
        cb completed source res h = (h, Reject e)
        /\ exchange s url options completed source res h
           = Normal (h, Reject e)).
Proof.
  intros Hfetch.
  destruct (fetch_normal_inv _ _ _ _ Hfetch) as (u & _ & Hparse & Hexec).
  symmetry in Hexec. apply executor_pending_inv in Hexec.
  destruct Hexec as (_ & _ & -> & _). split.
  - intros u' e Hparse' Hthrow. rewrite Hparse in Hparse'.
    injection Hparse' as <-. now apply callback_catch.
  - intros sess e -> Hfin.
    assert (Hcb : callback (href u) completed (Some sess) res h
                  = (h, Reject e)).
    { now apply callback_catch, callback_try_failed. }
    split; [exact Hcb|]. unfold exchange. rewrite Hfetch. simpl.
    now rewrite Hcb.
Qed.

(** C9. On a resolved response, [clone()] returns the reference to the
    response object itself, so every member call through the clone is the
    same call on the original. *)
Theorem clone_returns_the_same_object (s : Session) (url : value)
    (options : RequestInit.t) (completed : Message.t)
    (source : option Session) (res : AsyncResult) (h h' : Heap) (v : value) :
  exchange s url options completed source res h = Normal (h', Resolve v) ->
  invoke h' v Response.clone = Some (Plain v)
  /\ (forall c, invoke h' v Response.clone = Some (Plain c) ->
        c = v /\ forall member, invoke h' c member = invoke h' v member).
Proof.
  intros Hex. apply exchange_resolved_inv in Hex.
  destruct Hex as (u & sess & bytes & hs & _ & _ & _ & _ & -> & ->).
  rewrite invoke_allocated. simpl. split; [reflexivity|].
  now intros c [= <-].
Qed.

(** C10 (amended). When a request has been sent and the completion
    returns [null] instead of a byte buffer, a buffer whose [get_data()]
    is [null], or an empty array (in a runtime whose [toString()] of an
    empty array is the empty string), then, if every [append] of
    [responseHeaders()] returns, the promise is resolved with a response
    whose payload is the empty string; if an [append] throws, the promise
    is rejected with what it throws. *)
Theorem empty_buffer_resolves_with_empty_text (s : Session) (url : value)
    (options : RequestInit.t) (s' : Session) (m : Message.t) (prio : Z)
    (cb : Callback) (completed : Message.t) (sess : Session)
    (res : AsyncResult) (h : Heap) (bytes : option GBytes) :
  fetch s url options = Normal (Pending s' m prio cb) ->
  send_and_read_finish sess res = Normal bytes ->
  (bytes = None
   \/ exists b,
        bytes = Some b
        /\ (get_data b = None
            \/ (get_data b = Some [] /\ Uint8Array_toString [] = ""))) ->
  (forall hs,
     responseHeaders completed = Normal hs ->
     exists r,
       exchange s url options completed (Some sess) res h
       = Normal (h ++ [r], Resolve (VResponse (length h)))
       /\ (h ++ [r]) !! length h = Some r
       /\ Response.headers r = hs
       /\ Response.text r = text_fn ""
       /\ invoke (h ++ [r]) (VResponse (length h)) Response.text
          = Some (PromiseOf (Normal (VString ""))))
  /\ (forall e,
        responseHeaders completed = Throw e ->
        exchange s url options completed (Some sess) res h
        = Normal (h, Reject e)).
Proof.
  intros Hfetch Hfin Hempty.
  destruct (fetch_normal_inv _ _ _ _ Hfetch) as (u & _ & Hparse & Hexec).
  symmetry in Hexec. apply executor_pending_inv in Hexec.
  destruct Hexec as (_ & _ & -> & _).
  assert (Hbody : responseBody_of bytes = "").
  { destruct Hempty as [->|(b & -> & [Hdata|[Hdata Hstr]])]; [reflexivity| |];
      unfold responseBody_of; simpl; rewrite Hdata; [reflexivity|].
    simpl. exact Hstr. }
  split.
  - intros hs Hhs.
    exists (response_literal (href u) completed hs "" (length h)).
    split_and!.
    + unfold exchange. rewrite Hfetch. simpl. unfold callback.
      rewrite (callback_try_finished _ _ _ _ _ _ _ Hfin Hhs).
      now rewrite Hbody.
    + apply lookup_allocated.
    + reflexivity.
    + reflexivity.
    + now rewrite invoke_allocated.
  - intros e Hhs. unfold exchange. rewrite Hfetch. simpl.
    now rewrite (callback_catch _ _ _ _ _ _
                   (callback_try_refused _ _ _ _ _ _ _ Hfin Hhs)).
Qed.

End Properties.

(** ** Examples, on the example host *)

Section Examples.
Import TestHost.

Example array_index_canonical :
  array_index "0" = Some 0%N /\ array_index "10" = Some 10%N
  /\ array_index "4294967294" = Some 4294967294%N
  /\ array_index "4294967295" = None /\ array_index "01" = None
  /\ array_index "-1" = None /\ array_index "1.5" = None
  /\ array_index "X-B" = None /\ array_index "" = None.
Proof. repeat split; reflexivity. Qed.

Example obj_literal_overwrites_in_place :
  obj_literal [("a", VString "1"); ("b", VString "2"); ("a", VString "3")]
  = [("a", VString "3"); ("b", VString "2")].
Proof. reflexivity. Qed.

Example falsy_values :
  map ToBoolean
    [VUndefined; VNull; VBoolean false; VNumber (S754_zero false);
     VNumber (S754_zero true); VNumber S754_nan; VBigInt 0; VString "";
     VString "0"; VNumber (S754_finite false 1 0); VUint8Array [];
     VObject []; VArray []]
  = [false; false; false; false; false; false; false; false;
     true; true; true; true; true].
Proof. reflexivity. Qed.

(** The scenario of the specification: [method: "post"], header [X: 1]
    and body [z]. *)
Example post_scenario :
  fetch (H := host) session target
    {| RequestInit.method := Some "post";
       RequestInit.headers := Some (obj_literal [("X", VString "1")]);
       RequestInit.body := VString "z" |}
  = Normal
      (Pending session
         {| Message.method := "POST";
            Message.uri := "https://x/y";
            Message.request_headers := [("X", VString "1")];
            Message.request_body := Some ("text/plain", [x7a]);
            Message.status_code := 0;
            Message.reason_phrase := "";
            Message.response_headers := [] |}
         PRIORITY_DEFAULT (callback (H := host) "https://x/y")).
Proof. reflexivity. Qed.

(** The completion of that scenario with status 200 and the body [{}]. *)
Example resolved_scenario :
  exchange (H := host) session target RequestInit.empty (done 200 "OK")
    (Some session) 0%nat []
  = Normal ([response0 200 "OK" "{}"], Resolve (VResponse 0))
  /\ Response.ok (response0 200 "OK" "{}") = true
  /\ Response.headers (response0 200 "OK" "{}")
     = [("Content-Type", "application/json")]
  /\ invoke (H := host) [response0 200 "OK" "{}"] (VResponse 0) Response.json
     = Some (PromiseOf (Normal (VObject []))).
Proof. repeat split. Qed.

(** A callback that gets no session rejects with the error of its guard. *)
Example callback_without_session :
  callback (H := host) "https://x/y" (done 200 "OK") None 0%nat []
  = ([], Reject (Error "Session is required")).
Proof. reflexivity. Qed.

Example makeFetch_without_session :
  makeFetch (H := host) None = Throw (Error "Session is required").
Proof. reflexivity. Qed.

(** *** C1 *)

Lemma text_returns_the_decoded_buffer_witness :
  exists l r,
    VResponse 0 = VResponse l /\ [response0 200 "OK" "{}"] !! l = Some r
    /\ Response.text r = text_fn "{}"
    /\ Response.json r = json_fn "{}"
    /\ chunks (Response.body r) = [[x7b; x7d]]
    /\ forall n,
         invoke_all (H := host) [response0 200 "OK" "{}"] (VResponse 0)
           (replicate n Response.text)
         = replicate n (Some (PromiseOf (Normal (VString "{}")))).
Proof.
  exact (text_returns_the_decoded_buffer (H := host) session target
           RequestInit.empty (done 200 "OK") session 0%nat []
           [response0 200 "OK" "{}"] (VResponse 0)
           {| get_data := Some [x7b; x7d] |} [x7b; x7d]
           eq_refl eq_refl eq_refl).
Defined.

(** *** C2 *)

Lemma unsupported_truthy_body_rejects_witness :
  fetch (H := host) session target (with_body (VObject []))
  = Normal
      (Rejected
         (VError "Error"
            "Unsupported body type. Expected a string or Uint8Array, got object."
            (Some (VObject [])))).
Proof.
  exact (proj1 (proj1 (unsupported_truthy_body_rejects (H := host) session
                         target (with_body (VObject [])) target_url
                         eq_refl eq_refl)
                  eq_refl eq_refl)).
Defined.

(** The number 0 is neither a string nor a [Uint8Array], and a call with
    it as body is not rejected: the request is sent, without a body. *)
Lemma zero_body_is_not_rejected :
  let body := VNumber (S754_zero false) in
  string_or_bytes body = false
  /\ fetch (H := host) session target (with_body body)
     = Normal (Pending session (get_message (with_body body) None)
                 PRIORITY_DEFAULT (callback (H := host) "https://x/y"))
  /\ Message.request_body (get_message (with_body body) None) = None
  /\ forall e,
       fetch (H := host) session target (with_body body)
       <> Normal (Rejected e).
Proof. repeat split. intros e. discriminate. Qed.

(** *** C3 *)

Lemma body_is_sent_as_text_plain_witness :
  exists m cb,
    fetch (H := host) session target (with_body (VString "z"))
    = Normal (Pending session m PRIORITY_DEFAULT cb)
    /\ Message.request_body m = Some ("text/plain", [x7a]).
Proof.
  exact (proj1 (body_is_sent_as_text_plain (H := host) session target
                  (with_body (VString "z")) target_url eq_refl eq_refl)
           "z" eq_refl).
Defined.

(** The empty string is a string, and a call with it as body attaches no
    body and no content type to the message. *)
Lemma empty_string_body_is_not_attached :
  fetch (H := host) session target (with_body (VString ""))
  = Normal (Pending session (get_message (with_body (VString "")) None)
              PRIORITY_DEFAULT (callback (H := host) "https://x/y"))
  /\ Message.request_body (get_message (with_body (VString "")) None) = None
  /\ Message.request_body (get_message (with_body (VString "")) None)
     <> Some ("text/plain", TextEncoder_encode (Host := host) "").
Proof. repeat split. discriminate. Qed.

(** *** C4 *)

Lemma invalid_url_throws_synchronously_witness :
  fetch (H := host) session (VString "not a url") RequestInit.empty
  = Throw
      (VError "Error"
         "Invalid URL. Expected a string or URL object, got string. This failed because URL.canParse returned false."
         None).
Proof.
  exact (proj1 (invalid_url_throws_synchronously (H := host) session
                  (VString "not a url") RequestInit.empty eq_refl)).
Defined.

(** The error thrown for ["not a url"] has no cause and its message does
    not contain the refused text. *)
Lemma invalid_url_error_omits_the_value :
  URL_canParse (Host := host) (VString "not a url") = Normal false
  /\ exists e,
       fetch (H := host) session (VString "not a url") RequestInit.empty
       = Throw e
       /\ ~ names_value e (VString "not a url").
Proof.
  split; [reflexivity|]. eexists. split; [reflexivity|].
  intros [Hcause|(str & Hstr & Hocc)]; [discriminate|].
  injection Hstr as <-. vm_compute in Hocc. discriminate.
Qed.

(** *** C5 *)

Lemma ok_is_status_in_2xx_witness :
  exists l r,
    VResponse 0 = VResponse l
    /\ [response0 404 "Not Found" "{}"] !! l = Some r
    /\ Response.status r = 404%Z
    /\ Response.ok r
       = ((200 <=? Response.status r) && (Response.status r <? 300))%Z
    /\ (Response.status r = 404%Z -> Response.ok r = false)
    /\ (Response.status r = 204%Z -> Response.ok r = true).
Proof.
  exact (ok_is_status_in_2xx (H := host) session target RequestInit.empty
           (done 404 "Not Found") (Some session) 0%nat []
           [response0 404 "Not Found" "{}"] (VResponse 0) eq_refl).
Defined.

(** *** C6 *)

Lemma text_and_json_read_one_payload_witness :
  exists sess bytes l r,
    Some session = Some sess /\ send_and_read_finish sess 0%nat = Normal bytes
    /\ VResponse 0 = VResponse l /\ [response0 200 "OK" "{}"] !! l = Some r
    /\ Response.text r = text_fn (responseBody_of (H := host) bytes)
    /\ Response.json r = json_fn (responseBody_of (H := host) bytes)
    /\ invoke (H := host) [response0 200 "OK" "{}"] (VResponse 0)
         Response.text
       = Some (PromiseOf
                 (Normal (VString (responseBody_of (H := host) bytes))))
    /\ invoke (H := host) [response0 200 "OK" "{}"] (VResponse 0)
         Response.json
       = Some (PromiseOf (parseJSON (responseBody_of (H := host) bytes)))
    /\ invoke_all (H := host) [response0 200 "OK" "{}"] (VResponse 0)
         [Response.text; Response.text]
       = [Some (PromiseOf
                  (Normal (VString (responseBody_of (H := host) bytes))));
          Some (PromiseOf
                  (Normal (VString (responseBody_of (H := host) bytes))))]
    /\ invoke_all (H := host) [response0 200 "OK" "{}"] (VResponse 0)
         [Response.json; Response.json]
       = [Some (PromiseOf (parseJSON (responseBody_of (H := host) bytes)));
          Some (PromiseOf (parseJSON (responseBody_of (H := host) bytes)))]
    /\ invoke_all (H := host) [response0 200 "OK" "{}"] (VResponse 0)
         [Response.json; Response.text; Response.json; Response.text]
       = [Some (PromiseOf (parseJSON (responseBody_of (H := host) bytes)));
          Some (PromiseOf
                  (Normal (VString (responseBody_of (H := host) bytes))));
          Some (PromiseOf (parseJSON (responseBody_of (H := host) bytes)));
          Some (PromiseOf
                  (Normal (VString (responseBody_of (H := host) bytes))))].
Proof.
  exact (text_and_json_read_one_payload (H := host) session target
           RequestInit.empty (done 200 "OK") (Some session) 0%nat []
           [response0 200 "OK" "{}"] (VResponse 0) eq_refl).
Defined.

(** On the example session, whose buffer holds [{}], the payload of both
    accessors is that text. *)
Example text_and_json_of_braces :
  invoke (H := host) [response0 200 "OK" "{}"] (VResponse 0) Response.text
  = Some (PromiseOf (Normal (VString "{}")))
  /\ invoke_all (H := host) [response0 200 "OK" "{}"] (VResponse 0)
       [Response.json; Response.text]
     = [Some (PromiseOf (Normal (VObject [])));
        Some (PromiseOf (Normal (VString "{}")))].
Proof. split; reflexivity. Qed.

(** *** C7 *)

Lemma headers_are_appended_in_entries_order_witness :
  exists m cb,
    fetch (H := host) session target (with_headers plain_headers)
    = Normal (Pending session m PRIORITY_DEFAULT cb)
    /\ Message.request_headers m
       = [("X", VString "1"); ("Accept", VString "text/html")].
Proof.
  destruct (headers_are_appended_in_entries_order (H := host) session target
              (with_headers plain_headers) target_url plain_headers
              eq_refl eq_refl eq_refl (or_introl eq_refl))
    as (m & cb & Hfetch & _ & _ & _ & _ & _ & _ & Hsame).
  exists m, cb. split; [exact Hfetch|].
  apply Hsame. repeat constructor.
Defined.

(** The header names [2] and [1], written after [X-B], are sent before
    it and in the order 1, 2. *)
Lemma index_like_header_names_are_reordered :
  fetch (H := host) session target (with_headers numbered_headers)
  = Normal (Pending session (get_message (with_headers numbered_headers) None)
              PRIORITY_DEFAULT (callback (H := host) "https://x/y"))
  /\ numbered_headers
     = [("X-B", VString "b"); ("2", VString "two"); ("1", VString "one")]
  /\ Message.request_headers
       (get_message (with_headers numbered_headers) None)
     = [("1", VString "one"); ("2", VString "two"); ("X-B", VString "b")]
  /\ Message.request_headers
       (get_message (with_headers numbered_headers) None)
     <> numbered_headers.
Proof. repeat split. discriminate. Qed.

(** *** C8 *)

Lemma callback_error_rejects_unchanged_witness :
  callback (H := host) "https://x/y" (done 0 "") (Some session_failing)
    0%nat []
  = ([], Reject transport_error)
  /\ exchange (H := host) session_failing target RequestInit.empty
       (done 0 "") (Some session_failing) 0%nat []
     = Normal ([], Reject transport_error).
Proof.
  exact (proj2 (callback_error_rejects_unchanged (H := host) session_failing
                  target RequestInit.empty session_failing
                  (get_message RequestInit.empty None) PRIORITY_DEFAULT
                  (callback (H := host) "https://x/y") (done 0 "")
                  (Some session_failing) 0%nat [] eq_refl)
           session_failing transport_error eq_refl eq_refl).
Defined.

(** *** C9 *)

Lemma clone_returns_the_same_object_witness :
  invoke (H := host) [response0 200 "OK" "{}"] (VResponse 0) Response.clone
  = Some (Plain (VResponse 0)).
Proof.
  exact (proj1 (clone_returns_the_same_object (H := host) session target
                  RequestInit.empty (done 200 "OK") (Some session) 0%nat []
                  [response0 200 "OK" "{}"] (VResponse 0) eq_refl)).
Defined.

(** *** C10 *)

Lemma empty_buffer_resolves_with_empty_text_witness :
  exists r,
    exchange (H := host) session_null target RequestInit.empty
      (done 200 "OK") (Some session_null) 0%nat []
    = Normal ([] ++ [r], Resolve (VResponse 0))
    /\ ([] ++ [r]) !! 0%nat = Some r
    /\ Response.headers r = [("Content-Type", "application/json")]
    /\ Response.text r = text_fn ""
    /\ invoke (H := host) ([] ++ [r]) (VResponse 0) Response.text
       = Some (PromiseOf (Normal (VString ""))).
Proof.
  exact (proj1 (empty_buffer_resolves_with_empty_text (H := host) session_null
                  target RequestInit.empty session_null
                  (get_message RequestInit.empty None) PRIORITY_DEFAULT
                  (callback (H := host) "https://x/y") (done 200 "OK")
                  session_null 0%nat [] None eq_refl eq_refl
                  (or_introl eq_refl))
           [("Content-Type", "application/json")] eq_refl).
Defined.

(** An empty array of bytes, on the example host, gives the empty text. *)
Example empty_array_resolves_with_empty_text :
  exchange (H := host) session_empty target RequestInit.empty (done 200 "OK")
    (Some session_empty) 0%nat []
  = Normal ([response0 200 "OK" ""], Resolve (VResponse 0))
  /\ Response.text (response0 200 "OK" "") = text_fn "".
Proof. split; reflexivity. Qed.

(** A completion with a [null] byte buffer and a response header named
    [X(A)], which [Headers.append] refuses: the promise is rejected, with
    the error of the [append]. *)
Lemma null_buffer_with_refused_header_rejects :
  send_and_read_finish session_null 0%nat = Normal None
  /\ fetch (H := host) session_null target RequestInit.empty
     = Normal (Pending session_null (get_message RequestInit.empty None)
                 PRIORITY_DEFAULT (callback (H := host) "https://x/y"))
  /\ exchange (H := host) session_null target RequestInit.empty done_refused
       (Some session_null) 0%nat []
     = Normal ([], Reject refused_error)
  /\ forall h' v,
       exchange (H := host) session_null target RequestInit.empty
         done_refused (Some session_null) 0%nat []
       <> Normal (h', Resolve v).
Proof. repeat split. intros h' v. discriminate. Qed.

End Examples.

(** ** Further properties of the call, the callback and the response *)

Section Further.
Context `{Host}.

Lemma append_all_request_line (l : list (string * value)) (m : Message.t) :
  let m' :=
    fold_left (fun m kv => request_headers_append m (fst kv) (snd kv)) l m in
  Message.method m' = Message.method m /\ Message.uri m' = Message.uri m.
Proof.
  revert m. induction l as [|kv l IH]; intros m; simpl; [easy|].
  destruct (IH (request_headers_append m (fst kv) (snd kv))) as [Hm Hu].
  now rewrite Hm, Hu.
Qed.

Lemma sent_message_request_line method urlString options body :
  Message.method (sent_message method urlString options body) = method
  /\ Message.uri (sent_message method urlString options body) = urlString.
Proof.
  unfold sent_message.
  destruct (append_all_request_line
              (Object_entries (default [] (RequestInit.headers options)))
              (Message_new method urlString)) as [Hm Hu].
  destruct body as [b|]; [destruct (ToBoolean (VString b))|]; simpl;
    now rewrite Hm, Hu.
Qed.

Lemma sent_message_empty_body method urlString options :
  sent_message method urlString options (Some "")
  = sent_message method urlString options None.
Proof. reflexivity. Qed.

Lemma method_of_cases (options : RequestInit.t) :
  method_of options
  = match RequestInit.method options with
    | Some v => if String.eqb v "" then "GET" else String_toUpperCase v
    | None => "GET"
    end.
Proof.
  unfold method_of. destruct (RequestInit.method options) as [v|]; [|easy].
  simpl. now destruct (String.eqb v "").
Qed.

Lemma fetch_pending_inv s url options s' m prio cb :
  fetch s url options = Normal (Pending s' m prio cb) ->
  exists u body,
    URL_canParse url = Normal true /\ URL_parse url = Some u
    /\ s' = s /\ prio = PRIORITY_DEFAULT /\ cb = callback (href u)
    /\ m = sent_message (method_of options) (href u) options body.
Proof.
  intros Hfetch.
  destruct (fetch_normal_inv _ _ _ _ Hfetch) as (u & Hcan & Hparse & Hexec).
  symmetry in Hexec. apply executor_pending_inv in Hexec.
  destruct Hexec as (-> & -> & -> & body & ->).
  now exists u, body.
Qed.

Lemma callback_without_source urlString message res h :
  callback urlString message None res h
  = (h, Reject (Error "Session is required")).
Proof. reflexivity. Qed.

Lemma callback_finished urlString message sess res h bytes hs :
  send_and_read_finish sess res = Normal bytes ->
  responseHeaders message = Normal hs ->
  callback urlString message (Some sess) res h
  = (h ++ [response_literal urlString message hs (responseBody_of bytes)
             (length h)],
     Resolve (VResponse (length h))).
Proof.
  intros Hfin Hhs. unfold callback.
  now rewrite (callback_try_finished _ _ _ _ _ _ _ Hfin Hhs).
Qed.

Lemma callback_refused urlString message sess res h bytes e :
  send_and_read_finish sess res = Normal bytes ->
  responseHeaders message = Throw e ->
  callback urlString message (Some sess) res h = (h, Reject e).
Proof.
  intros Hfin Hhs.
  now apply callback_catch, (callback_try_refused _ _ _ _ _ bytes).
Qed.

Lemma callback_rejected_heap urlString message source res h h' e :
  callback urlString message source res h = (h', Reject e) -> h' = h.
Proof.
  unfold callback.
  destruct (callback_try urlString message source res h) as [[h0 v0]|e0];
    [discriminate|].
  now intros [= <- _].
Qed.


Lemma callback_failed urlString message sess res h e :
  send_and_read_finish sess res = Throw e ->
  callback urlString message (Some sess) res h = (h, Reject e).
Proof. intros Hfin. now apply callback_catch, callback_try_failed. Qed.

(** X1. The call throws exactly when [URL.canParse] throws or refuses
    the URL or [URL.parse] gives [null], whatever the options are (an
    unsupported body included: the URL is checked first). What it throws
    is what [URL.canParse] has thrown, if it has, and the [Invalid URL]
    error naming [typeof url] otherwise. *)
Theorem fetch_throws_iff_url_unparseable (s : Session) (url : value)
    (options : RequestInit.t) :
  (((exists e, URL_canParse url = Throw e)
    \/ URL_canParse url = Normal false \/ URL_parse url = None)
   <-> exists e, fetch s url options = Throw e)
  /\ (forall e,
        fetch s url options = Throw e ->
        URL_canParse url = Throw e
        \/ ((exists b, URL_canParse url = Normal b)
            /\ e = Error ("Invalid URL. Expected a string or URL object, got "
                          +:+ typeof url
                          +:+ ". This failed because URL.canParse returned false."))).
Proof.
  unfold fetch. destruct (URL_canParse url) as [[|]|e0] eqn:Hcan; simpl.
  - destruct (URL_parse url) as [u|] eqn:Hparse.
    + split; [split|].
      * intros [[e He]|[Hf|Hn]]; discriminate.
      * intros [e He]. discriminate.
      * intros e He. discriminate.
    + split; [split|]; eauto. intros e [= <-]. right. eauto.
  - split; [split|]; eauto. intros e [= <-]. right. eauto.
  - split; [split|]; eauto. intros e [= <-]. now left.
Qed.

(** X2. With a parseable URL, the returned promise is rejected by its
    executor exactly when the body is truthy and neither a string nor a
    [Uint8Array]: strings, byte arrays (empty ones too) and falsy values
    never cause a rejection before the request is sent. *)
Theorem executor_rejects_iff_body_unsupported (s : Session) (url : value)
    (options : RequestInit.t) (u : URL) :
  URL_canParse url = Normal true -> URL_parse url = Some u ->
  ((exists e, fetch s url options = Normal (Rejected e))
   <-> ToBoolean (RequestInit.body options) = true
       /\ string_or_bytes (RequestInit.body options) = false).
Proof.
  intros Hcan Hparse. rewrite (fetch_parsed _ _ _ _ Hcan Hparse). split.
  - intros [e He].
    destruct (ToBoolean (RequestInit.body options)) eqn:Ht.
    + destruct (string_or_bytes (RequestInit.body options)) eqn:Hs; [|easy].
      destruct (executor_sends s (href u) options (or_intror Hs)) as [b Hb].
      rewrite Hb in He. discriminate.
    + rewrite (executor_falsy_body _ _ _ Ht) in He. discriminate.
  - intros [Ht Hs]. rewrite (executor_unsupported_body _ _ _ Ht Hs). eauto.
Qed.

(** X3. With a parseable URL and default options the call sends, through
    the session and with the default priority, the bare message
    [GET <parsed URL>]: no header line and no body. For any options, a
    sent message targets the parsed URL's string and its method is [GET]
    when [options.method] is absent or empty and the upper-cased
    [options.method] otherwise, whatever that string is. *)
Theorem request_line_of_sent_message (s : Session) (url : value) (u : URL) :
  URL_canParse url = Normal true -> URL_parse url = Some u ->
  fetch s url RequestInit.empty
  = Normal (Pending s (Message_new "GET" (href u)) PRIORITY_DEFAULT
              (callback (href u)))
  /\ (forall options s' m prio cb,
        fetch s url options = Normal (Pending s' m prio cb) ->
        s' = s /\ prio = PRIORITY_DEFAULT
        /\ Message.uri m = href u
        /\ Message.method m
           = match RequestInit.method options with
             | Some v =>
                 if String.eqb v "" then "GET" else String_toUpperCase v
             | None => "GET"
             end).
Proof.
  intros Hcan Hparse. split.
  - now rewrite (fetch_parsed _ _ _ _ Hcan Hparse).
  - intros options s' m prio cb Hfetch.
    apply fetch_pending_inv in Hfetch.
    destruct Hfetch as (u' & body & _ & Hparse' & -> & -> & _ & ->).
    rewrite Hparse in Hparse'. injection Hparse' as <-.
    destruct (sent_message_request_line (method_of options) (href u) options
                body) as [Hm Hu].
    rewrite Hm, Hu, method_of_cases. easy.
Qed.

(** X4. A [Uint8Array] body and the string it decodes to are
    interchangeable: with the same method and headers, both calls have the
    same outcome (the same throw, or the same message sent with the same
    callback). *)
Theorem bytes_body_is_sent_like_its_decoding (s : Session) (url : value)
    (method : option string) (headers : option JsObject) (bytes : list byte) :
  fetch s url
    {| RequestInit.method := method; RequestInit.headers := headers;
       RequestInit.body := VUint8Array bytes |}
  = fetch s url
      {| RequestInit.method := method; RequestInit.headers := headers;
         RequestInit.body := VString (TextDecoder_decode bytes) |}.
Proof.
  unfold fetch. destruct (URL_canParse url) as [[|]|e]; simpl;
    try reflexivity.
  destruct (URL_parse url) as [u|]; [|reflexivity]. f_equal.
  rewrite (executor_bytes_body s (href u)
             {| RequestInit.method := method; RequestInit.headers := headers;
                RequestInit.body := VUint8Array bytes |} bytes eq_refl).
  rewrite (executor_string_body s (href u)
             {| RequestInit.method := method; RequestInit.headers := headers;
                RequestInit.body := VString (TextDecoder_decode bytes) |}
             (TextDecoder_decode bytes) eq_refl).
  destruct (String.eqb (TextDecoder_decode bytes) "") eqn:E; [|reflexivity].
  apply String.eqb_eq in E. rewrite E. reflexivity.
Qed.

(** X5. The header lines of a sent message come from [options.headers]
    only: without that option there is none, even when a body is
    attached, and every line is a property of the mapping. The content
    type given with a body is always [text/plain], whatever the mapping
    says. *)
Theorem header_lines_come_only_from_options (s : Session) (url : value)
    (options : RequestInit.t) (s' : Session) (m : Message.t) (prio : Z)
    (cb : Callback) :
  fetch s url options = Normal (Pending s' m prio cb) ->
  (RequestInit.headers options = None -> Message.request_headers m = [])
  /\ (forall kv, kv ∈ Message.request_headers m ->
        exists o, RequestInit.headers options = Some o /\ kv ∈ o)
  /\ (forall content_type bytes,
        Message.request_body m = Some (content_type, bytes) ->
        content_type = "text/plain").
Proof.
  intros Hfetch. apply fetch_pending_inv in Hfetch.
  destruct Hfetch as (u & body & _ & _ & _ & _ & _ & ->).
  rewrite sent_message_headers, sent_message_body. split_and!.
  - now intros ->.
  - intros kv Hin. destruct (RequestInit.headers options) as [o|].
    + exists o. split; [easy|]. now rewrite <- (Object_entries_Permutation o).
    + simpl in Hin. now apply elem_of_nil in Hin.
  - intros content_type bytes. destruct body as [b|]; [|discriminate].
    destruct (String.eqb b ""); [discriminate|]. now intros [= <- _].
Qed.


Lemma invoke_older (h : Heap) (r : Response.t) (l : loc) (r0 : Response.t)
    (member : Response.t -> Closure) :
  h !! l = Some r0 ->
  invoke (h ++ [r]) (VResponse l) member = invoke h (VResponse l) member.
Proof.
  intros Hl. unfold invoke, loc, Heap in *.
  rewrite (lookup_app_l_Some h [r] l r0 Hl). now rewrite Hl.
Qed.

(** X7. [makeFetch] throws [Session is required] exactly when it gets no
    session; otherwise it returns a function all of whose requests go to
    that session, with the default priority. *)
Theorem makeFetch_binds_the_session (session : option Session) :
  (session = None <-> exists e, makeFetch session = Throw e)
  /\ (forall e, makeFetch session = Throw e ->
        e = Error "Session is required")
  /\ (forall s, session = Some s ->
        exists f,
          makeFetch session = Normal f
          /\ forall url options s' m prio cb,
               f url options = Normal (Pending s' m prio cb) ->
               s' = s /\ prio = PRIORITY_DEFAULT).
Proof.
  destruct session as [s|]; simpl; split_and!.
  - split; [discriminate|]. intros [e He]. discriminate.
  - intros e He. discriminate.
  - intros s0 [= <-]. eexists. split; [reflexivity|].
    intros url options s' m prio cb Hfetch.
    apply fetch_pending_inv in Hfetch.
    now destruct Hfetch as (u & body & _ & _ & -> & -> & _).
  - split; eauto.
  - now intros e [= <-].
  - discriminate.
Qed.

(** X8. How a sent request settles depends on the completion only
    through the callback's session argument, the outcome of
    [send_and_read_finish] and the outcome of the [append] calls of
    [responseHeaders()]: the promise resolves exactly when there is a
    session and both return, whatever the status code (404 and 500
    included) and the payload; it rejects with [Session is required] when
    the callback gets no session, with the thrown value when the finish
    call throws, and with the error of the [append] when a response
    header is refused. *)
Theorem settlement_follows_the_finish_call (s : Session) (url : value)
    (options : RequestInit.t) (s' : Session) (m : Message.t) (prio : Z)
    (cb : Callback) (completed : Message.t) (source : option Session)
    (res : AsyncResult) (h : Heap) :
  fetch s url options = Normal (Pending s' m prio cb) ->
  ((exists h' v, cb completed source res h = (h', Resolve v))
   <-> exists sess bytes hs,
         source = Some sess /\ send_and_read_finish sess res = Normal bytes
         /\ responseHeaders completed = Normal hs)
  /\ (forall e,
        (exists h', cb completed source res h = (h', Reject e))
        <-> (source = None /\ e = Error "Session is required")
            \/ (exists sess,
                  source = Some sess
                  /\ send_and_read_finish sess res = Throw e)
            \/ (exists sess bytes,
                  source = Some sess
                  /\ send_and_read_finish sess res = Normal bytes
                  /\ responseHeaders completed = Throw e)).
Proof.
  intros Hfetch. apply fetch_pending_inv in Hfetch.
  destruct Hfetch as (u & body & _ & _ & _ & _ & -> & _).
  destruct source as [sess|].
  - destruct (send_and_read_finish sess res) as [bytes|e0] eqn:Hfin.
    + destruct (responseHeaders completed) as [hs|e1] eqn:Hhs.
      * rewrite (callback_finished _ _ _ _ _ _ _ Hfin Hhs). split.
        -- split; eauto 6.
        -- intros e. split.
           ++ intros [h' Hcb]. discriminate.
           ++ intros [[Hn _]|[(sess' & [= <-] & Hfin')
                             |(sess' & bytes' & _ & _ & Hhs')]];
                [discriminate| |discriminate].
              rewrite Hfin in Hfin'. discriminate.
      * rewrite (callback_refused _ _ _ _ _ _ _ Hfin Hhs). split.
        -- split.
           ++ intros (h' & v & Hcb). discriminate.
           ++ intros (sess' & bytes' & hs & _ & _ & Hhs'). discriminate.
        -- intros e. split.
           ++ intros [h' [= <- <-]]. right. right. eauto.
           ++ intros [[Hn _]|[(sess' & [= <-] & Hfin')
                             |(sess' & bytes' & _ & _ & [= <-])]];
                [discriminate| |eauto].
              rewrite Hfin in Hfin'. discriminate.
    + rewrite (callback_failed _ _ _ _ _ _ Hfin). split.
      * split.
        -- intros (h' & v & Hcb). discriminate.
        -- intros (sess' & bytes & hs & [= <-] & Hfin' & _).
           rewrite Hfin in Hfin'. discriminate.
      * intros e. split.
        -- intros [h' [= <- <-]]. right. left. eauto.
        -- intros [[Hn _]|[(sess' & [= <-] & Hfin')
                          |(sess' & bytes' & [= <-] & Hfin' & _)]];
             [discriminate| |].
           ++ rewrite Hfin in Hfin'. injection Hfin' as <-. eauto.
           ++ rewrite Hfin in Hfin'. discriminate.
  - rewrite callback_without_source. split.
    + split.
      * intros (h' & v & Hcb). discriminate.
      * intros (sess & bytes & hs & Hs & _). discriminate.
    + intros e. split.
      * intros [h' [= <- <-]]. now left.
      * intros [[_ ->]|[(sess & Hs & _)|(sess & bytes & Hs & _)]];
          [eauto|discriminate|discriminate].
Qed.


(** X10. A resolved response reports the status code and reason phrase of
    the completed message and, as its [url], the target of the message
    that was sent (the parsed URL's string, not the value passed in); it
    is never marked redirected, whatever the status, its type is
    [default] and [bodyUsed] is already true. *)
Theorem response_reports_status_line_and_target (s : Session) (url : value)
    (options : RequestInit.t) (completed : Message.t)
    (source : option Session) (res : AsyncResult) (h h' : Heap) (v : value) :
  exchange s url options completed source res h = Normal (h', Resolve v) ->
  exists l r m cb,
    v = VResponse l /\ h' !! l = Some r
    /\ fetch s url options = Normal (Pending s m PRIORITY_DEFAULT cb)
    /\ Response.url r = Message.uri m
    /\ Response.status r = Message.status_code completed
    /\ Response.statusText r = Message.reason_phrase completed
    /\ Response.redirected r = false
    /\ Response.type r = "default"
    /\ Response.bodyUsed r = true.
Proof.
  intros Hex.
  destruct (fetch s url options) as [p|e] eqn:Hfetch;
    [|unfold exchange in Hex; rewrite Hfetch in Hex; discriminate].
  destruct p as [e|s' m prio cb];
    [unfold exchange in Hex; rewrite Hfetch in Hex; discriminate|].
  pose proof Hfetch as Hinv. apply fetch_pending_inv in Hinv.
  destruct Hinv as (u & body & _ & Hparse & -> & -> & -> & ->).
  apply exchange_resolved_inv in Hex.
  destruct Hex as (u' & sess & bytes & hs & Hparse' & _ & _ & _ & -> & ->).
  rewrite Hparse in Hparse'. injection Hparse' as <-.
  eexists _, _, _, _. split; [reflexivity|]. split; [apply lookup_allocated|].
  split; [reflexivity|].
  destruct (sent_message_request_line (method_of options) (href u) options
              body) as [_ Hu].
  rewrite Hu. simpl. easy.
Qed.

(** X11. All body accessors of a resolved response read one payload:
    [text()] is fulfilled with it, [arrayBuffer()] with its encoding,
    [blob()] with a blob of that one part, [formData()] with the single
    entry [body]; none of these four ever rejects. The [body] stream holds
    exactly one chunk, the same bytes as [arrayBuffer()], and is closed. *)
Theorem body_accessors_share_one_payload (s : Session) (url : value)
    (options : RequestInit.t) (completed : Message.t)
    (source : option Session) (res : AsyncResult) (h h' : Heap) (v : value) :
  exchange s url options completed source res h = Normal (h', Resolve v) ->
  exists payload l r,
    v = VResponse l /\ h' !! l = Some r
    /\ invoke h' v Response.text = Some (PromiseOf (Normal (VString payload)))
    /\ invoke h' v Response.arrayBuffer
       = Some (PromiseOf (Normal (VUint8Array (TextEncoder_encode payload))))
    /\ invoke h' v Response.blob
       = Some (PromiseOf (Normal (VBlob [payload])))
    /\ invoke h' v Response.formData
       = Some (PromiseOf (Normal (VFormData [("body", payload)])))
    /\ Response.body r
       = {| chunks := [TextEncoder_encode payload]; closed := true |}.
Proof.
  intros Hex. apply exchange_resolved_inv in Hex.
  destruct Hex as (u & sess & bytes & hs & _ & _ & _ & _ & -> & ->).
  exists (responseBody_of bytes). eexists _, _.
  split; [reflexivity|]. split; [apply lookup_allocated|].
  rewrite !invoke_allocated. simpl. split_and!; reflexivity.
Qed.

(** X12. The callback of a sent request only ever adds to the heap: every
    response allocated before is still there, unchanged; a rejection
    leaves the heap as it was, and a resolution adds exactly one object,
    at an address that was free. *)
Theorem callback_keeps_earlier_responses (s : Session) (url : value)
    (options : RequestInit.t) (s' : Session) (m : Message.t) (prio : Z)
    (cb : Callback) (completed : Message.t) (source : option Session)
    (res : AsyncResult) (h h' : Heap) (st : Settlement) :
  fetch s url options = Normal (Pending s' m prio cb) ->
  cb completed source res h = (h', st) ->
  (forall l r, h !! l = Some r -> h' !! l = Some r)
  /\ (forall e, st = Reject e -> h' = h)
  /\ (forall v, st = Resolve v ->
        v = VResponse (length h) /\ h !! length h = None
        /\ length h' = S (length h)).
Proof.
  intros Hfetch Hcb. apply fetch_pending_inv in Hfetch.
  destruct Hfetch as (u & body & _ & _ & _ & _ & -> & _).
  destruct st as [v|e].
  - apply callback_resolve_inv, callback_try_normal_inv in Hcb.
    destruct Hcb as (sess & bytes & hs & _ & _ & _ & -> & ->). split_and!.
    + intros l r Hl. now apply lookup_app_l_Some.
    + discriminate.
    + intros v [= <-]. split_and!; [easy| |].
      * now apply lookup_ge_None_2.
      * rewrite length_app. simpl. lia.
  - assert (h' = h) as -> by exact (callback_rejected_heap _ _ _ _ _ _ _ Hcb).
    split_and!; [easy|easy|discriminate].
Qed.

(** X13. Two exchanges resolved one after the other give two different
    response objects: the first is untouched by the second (every member
    call on it gives what it gave before), and [clone()] on each returns
    that one, never the other. *)
Theorem successive_responses_are_distinct_objects
    (s1 s2 : Session) (url1 url2 : value) (options1 options2 : RequestInit.t)
    (completed1 completed2 : Message.t) (source1 source2 : option Session)
    (res1 res2 : AsyncResult) (h0 h1 h2 : Heap) (v1 v2 : value) :
  exchange s1 url1 options1 completed1 source1 res1 h0
  = Normal (h1, Resolve v1) ->
  exchange s2 url2 options2 completed2 source2 res2 h1
  = Normal (h2, Resolve v2) ->
  v1 <> v2
  /\ (forall member, invoke h2 v1 member = invoke h1 v1 member)
  /\ invoke h2 v1 Response.clone = Some (Plain v1)
  /\ invoke h2 v2 Response.clone = Some (Plain v2).
Proof.
  intros Hex1 Hex2.
  apply exchange_resolved_inv in Hex1.
  destruct Hex1 as (u1 & sess1 & bytes1 & hs1 & _ & _ & _ & _ & -> & ->).
  apply exchange_resolved_inv in Hex2.
  destruct Hex2 as (u2 & sess2 & bytes2 & hs2 & _ & _ & _ & _ & -> & ->).
  set (r1 := response_literal (href u1) completed1 hs1
               (responseBody_of bytes1) (length h0)).
  set (r2 := response_literal (href u2) completed2 hs2
               (responseBody_of bytes2) (length (h0 ++ [r1]))).
  assert (Hkeep : forall member,
             invoke ((h0 ++ [r1]) ++ [r2]) (VResponse (length h0)) member
             = invoke (h0 ++ [r1]) (VResponse (length h0)) member).
  { intros member.
    apply (invoke_older (h0 ++ [r1]) r2 (length h0) r1), lookup_allocated. }
  split_and!.
  - rewrite length_app. simpl. intros [= Heq]. lia.
  - exact Hkeep.
  - rewrite Hkeep. now rewrite invoke_allocated.
  - now rewrite invoke_allocated.
Qed.

End Further.

(** ** Examples of the further properties, on the example host *)

Section FurtherExamples.
Import TestHost.

Lemma fetch_throws_iff_url_unparseable_witness :
  exists e,
    fetch (H := host) session (VSymbol "id") (with_body (VObject []))
    = Throw e.
Proof.
  exact (proj1 (proj1 (fetch_throws_iff_url_unparseable (H := host) session
                         (VSymbol "id") (with_body (VObject []))))
           (or_introl
              (ex_intro _
                 (VError "TypeError" "can't convert symbol to string" None)
                 eq_refl))).
Defined.

(** A Symbol makes the call throw the error of [URL.canParse]; a string
    that is no URL makes it throw the [Invalid URL] error. *)
Example fetch_of_symbol_and_of_text :
  fetch (H := host) session (VSymbol "id") RequestInit.empty
  = Throw (VError "TypeError" "can't convert symbol to string" None)
  /\ fetch (H := host) session (VString "not a url") RequestInit.empty
     = Throw
         (Error
            "Invalid URL. Expected a string or URL object, got string. This failed because URL.canParse returned false.").
Proof. split; reflexivity. Qed.

Lemma executor_rejects_iff_body_unsupported_witness :
  exists e,
    fetch (H := host) session target (with_body (VObject []))
    = Normal (Rejected e).
Proof.
  exact (proj2 (executor_rejects_iff_body_unsupported (H := host) session
                  target (with_body (VObject [])) target_url eq_refl eq_refl)
           (conj eq_refl eq_refl)).
Defined.

Lemma request_line_of_sent_message_witness :
  fetch (H := host) session target RequestInit.empty
  = Normal (Pending session (Message_new "GET" "https://x/y") PRIORITY_DEFAULT
              (callback (H := host) "https://x/y")).
Proof.
  exact (proj1 (request_line_of_sent_message (H := host) session target
                  target_url eq_refl eq_refl)).
Defined.

Lemma bytes_body_is_sent_like_its_decoding_witness :
  fetch (H := host) session target
    {| RequestInit.method := Some "put"; RequestInit.headers := None;
       RequestInit.body := VUint8Array [x7a] |}
  = fetch (H := host) session target
      {| RequestInit.method := Some "put"; RequestInit.headers := None;
         RequestInit.body := VString "z" |}.
Proof.
  exact (bytes_body_is_sent_like_its_decoding (H := host) session target
           (Some "put") None [x7a]).
Defined.

Lemma header_lines_come_only_from_options_witness :
  Message.request_headers (get_message (with_body (VString "z")) (Some "z"))
  = []
  /\ Message.request_body (get_message (with_body (VString "z")) (Some "z"))
     = Some ("text/plain", [x7a]).
Proof.
  split; [|reflexivity].
  exact (proj1 (header_lines_come_only_from_options (H := host) session
                  target (with_body (VString "z")) session
                  (get_message (with_body (VString "z")) (Some "z"))
                  PRIORITY_DEFAULT (callback (H := host) "https://x/y")
                  eq_refl)
           eq_refl).
Defined.


Lemma makeFetch_binds_the_session_witness :
  exists f,
    makeFetch (H := host) (Some session) = Normal f
    /\ forall url options s' m prio cb,
         f url options = Normal (Pending s' m prio cb) ->
         s' = session /\ prio = PRIORITY_DEFAULT.
Proof.
  exact (proj2 (proj2 (makeFetch_binds_the_session (H := host)
                         (Some session)))
           session eq_refl).
Defined.

Lemma settlement_follows_the_finish_call_witness :
  exists h' v,
    callback (H := host) "https://x/y" (done 500 "Internal Server Error")
      (Some session) 0%nat []
    = (h', Resolve v).
Proof.
  exact (proj2 (proj1 (settlement_follows_the_finish_call (H := host) session
                         target RequestInit.empty session
                         (get_message RequestInit.empty None) PRIORITY_DEFAULT
                         (callback (H := host) "https://x/y")
                         (done 500 "Internal Server Error") (Some session)
                         0%nat [] eq_refl))
           (ex_intro _ session
              (ex_intro _ (Some {| get_data := Some [x7b; x7d] |})
                 (ex_intro _ [("Content-Type", "application/json")]
                    (conj eq_refl (conj eq_refl eq_refl)))))).
Defined.


(** On the example host the header list keeps the lines in the order of
    the calls, with the value trimmed and the name spelled as in the
    first line of that name. *)
Example response_headers_of_three_lines :
  responseHeaders (H := host) done_three_lines
  = Normal [("X-B", "1"); ("X-A", "2"); ("X-B", "3")].
Proof. reflexivity. Qed.

Lemma response_reports_status_line_and_target_witness :
  exists l r m cb,
    VResponse 0 = VResponse l
    /\ [response0 301 "Moved Permanently" "{}"] !! l = Some r
    /\ fetch (H := host) session target RequestInit.empty
       = Normal (Pending session m PRIORITY_DEFAULT cb)
    /\ Response.url r = Message.uri m
    /\ Response.status r = 301%Z
    /\ Response.statusText r = "Moved Permanently"
    /\ Response.redirected r = false
    /\ Response.type r = "default"
    /\ Response.bodyUsed r = true.
Proof.
  exact (response_reports_status_line_and_target (H := host) session target
           RequestInit.empty (done 301 "Moved Permanently") (Some session)
           0%nat [] [response0 301 "Moved Permanently" "{}"] (VResponse 0)
           eq_refl).
Defined.

Lemma body_accessors_share_one_payload_witness :
  exists payload l r,
    VResponse 0 = VResponse l /\ [response0 200 "OK" "{}"] !! l = Some r
    /\ invoke (H := host) [response0 200 "OK" "{}"] (VResponse 0)
         Response.text
       = Some (PromiseOf (Normal (VString payload)))
    /\ invoke (H := host) [response0 200 "OK" "{}"] (VResponse 0)
         Response.arrayBuffer
       = Some (PromiseOf
                 (Normal (VUint8Array (list_byte_of_string payload))))
    /\ invoke (H := host) [response0 200 "OK" "{}"] (VResponse 0)
         Response.blob
       = Some (PromiseOf (Normal (VBlob [payload])))
    /\ invoke (H := host) [response0 200 "OK" "{}"] (VResponse 0)
         Response.formData
       = Some (PromiseOf (Normal (VFormData [("body", payload)])))
    /\ Response.body r
       = {| chunks := [list_byte_of_string payload]; closed := true |}.
Proof.
  exact (body_accessors_share_one_payload (H := host) session target
           RequestInit.empty (done 200 "OK") (Some session) 0%nat []
           [response0 200 "OK" "{}"] (VResponse 0) eq_refl).
Defined.

Lemma callback_keeps_earlier_responses_witness :
  [response0 200 "OK" "{}";
   response1 404 "Not Found" "{}"]
  !! 0%nat
  = Some (response0 200 "OK" "{}").
Proof.
  exact (proj1 (callback_keeps_earlier_responses (H := host) session target
                  RequestInit.empty session
                  (get_message RequestInit.empty None) PRIORITY_DEFAULT
                  (callback (H := host) "https://x/y") (done 404 "Not Found")
                  (Some session) 0%nat [response0 200 "OK" "{}"]
                  [response0 200 "OK" "{}";
                   response1 404 "Not Found" "{}"]
                  (Resolve (VResponse 1)) eq_refl eq_refl)
           0%nat (response0 200 "OK" "{}") eq_refl).
Defined.

Lemma successive_responses_are_distinct_objects_witness :
  VResponse 0 <> VResponse 1
  /\ (forall member,
        invoke (H := host)
          [response0 200 "OK" "{}";
           response1 404 "Not Found" "{}"]
          (VResponse 0) member
        = invoke (H := host) [response0 200 "OK" "{}"] (VResponse 0) member)
  /\ invoke (H := host)
       [response0 200 "OK" "{}";
        response1 404 "Not Found" "{}"]
       (VResponse 0) Response.clone
     = Some (Plain (VResponse 0))
  /\ invoke (H := host)
       [response0 200 "OK" "{}";
        response1 404 "Not Found" "{}"]
       (VResponse 1) Response.clone
     = Some (Plain (VResponse 1)).
Proof.
  exact (successive_responses_are_distinct_objects (H := host) session session
           target target RequestInit.empty RequestInit.empty
           (done 200 "OK") (done 404 "Not Found") (Some session) (Some session)
           0%nat 0%nat [] [response0 200 "OK" "{}"]
           [response0 200 "OK" "{}";
            response1 404 "Not Found" "{}"]
           (VResponse 0) (VResponse 1) eq_refl eq_refl).
Defined.

End FurtherExamples.
